(** * bccdata: a metadata-driven relational mapping layer

    A shallow embedding of [bccdata.go] and the verification of its
    registries (entity descriptions, relationships) and of its four generic
    operations ([Create], [FindEntity], [FindEntities], [FindRelatedEntity]).

    Go maps are reference values and [*DatabaseContext] is a pointer, so both
    live in an explicit store; the datastore, the clock, the factories and the
    row scanners are external collaborators, modelled by a [World] that answers
    every call as a function of the calls made so far. *)

From Stdlib Require Import ZArith List Ascii String.
From stdpp Require Import base option list gmap strings fin_maps.

Open Scope string_scope.
Open Scope list_scope.

(** ** Handles of the external collaborators *)

Definition loc := nat.        (* address of a store cell *)
Definition db := nat.         (* a live *sql.DB *)
Definition tx := nat.         (* a live *sql.Tx *)
Definition stmt := nat.       (* a live *sql.Stmt *)
Definition rows := nat.       (* a live *sql.Rows *)
Definition result := nat.     (* a non-nil sql.Result *)
Definition factory := nat.    (* a non-nil func() Entity *)
Definition Entity := nat.     (* a non-nil Entity interface value *)

(** A Go [error]: [None] is [nil]. *)
Definition error := option string.

(** The [interface{}] values handed to the datastore as parameters. *)
Inductive value :=
| VInt64 (z : Z)
| VString (s : string)
| VBool (b : bool)
| VNil.

(** ** Data model (bccdata.go, lines 9-33) *)

Record EntityRelationship := mkEntityRelationship {
  EntityName : string;
  JoinTableName : string;
  ForeignKey : string;
  TargetKey : string
}.

Record EntityDescription := mkEntityDescription {
  Name : string;
  TableName : string;
  PrimaryKey : string;
  Relationships : option loc;        (* map[string]EntityRelationship, None = nil map *)
  InsertStatement : option stmt;     (* *sql.Stmt *)
  CreateZeroInstance : option factory; (* func() Entity *)
  Context : option loc               (* *DatabaseContext *)
}.

Record DatabaseContext := mkDatabaseContext {
  Database : option db;              (* *sql.DB *)
  EntityDescriptions : option loc    (* map[string]EntityDescription, None = nil map *)
}.

(** Go zero values. *)
Definition zeroEntityRelationship : EntityRelationship :=
  mkEntityRelationship "" "" "" "".

Definition zeroEntityDescription : EntityDescription :=
  mkEntityDescription "" "" "" None None None None.

Definition set_Relationships (d : EntityDescription) (m : option loc) : EntityDescription :=
  mkEntityDescription (Name d) (TableName d) (PrimaryKey d) m
    (InsertStatement d) (CreateZeroInstance d) (Context d).

Definition set_Context (d : EntityDescription) (c : option loc) : EntityDescription :=
  mkEntityDescription (Name d) (TableName d) (PrimaryKey d) (Relationships d)
    (InsertStatement d) (CreateZeroInstance d) c.

Definition set_EntityDescriptions (c : DatabaseContext) (m : option loc) : DatabaseContext :=
  mkDatabaseContext (Database c) m.

(** ** Calls made to the external collaborators *)

Inductive call :=
| DBBegin (d : db)
| TxStmt (t : tx) (s : stmt)
| StmtExec (s : stmt) (args : list value)
| ResultLastInsertId (r : result)
| TimeNowUnix
| TxExec (t : tx) (query : string) (args : list value)
| TxQuery (t : tx) (query : string) (args : list value)
| DBQuery (d : db) (query : string) (args : list value)
| ZeroInstance (f : factory)
| ScanFromRow (e : Entity) (r : option rows)
| RowsClose (r : rows)
| StmtClose (s : stmt)
| TxCommit (t : tx)
| TxRollback (t : tx).

(** ** The store

    [contexts] holds the [DatabaseContext] values that pointers refer to;
    [descmaps] and [relmaps] hold the contents of the Go maps, which struct
    copies share.  [trace] is the list of external calls so far, oldest
    first. *)

Record State := mkState {
  contexts : gmap loc DatabaseContext;
  descmaps : gmap loc (gmap string EntityDescription);
  relmaps : gmap loc (gmap string EntityRelationship);
  trace : list call
}.

Definition set_contexts (s : State) (c : gmap loc DatabaseContext) : State :=
  mkState c (descmaps s) (relmaps s) (trace s).

Definition set_descmaps (s : State) (m : gmap loc (gmap string EntityDescription)) : State :=
  mkState (contexts s) m (relmaps s) (trace s).

Definition set_relmaps (s : State) (m : gmap loc (gmap string EntityRelationship)) : State :=
  mkState (contexts s) (descmaps s) m (trace s).

Definition set_trace (s : State) (t : list call) : State :=
  mkState (contexts s) (descmaps s) (relmaps s) t.

(** ** Outcomes and the monad of Go method bodies *)

Inductive panic :=
| NilDereference      (* invalid memory address or nil pointer dereference *)
| IndexOutOfRange.    (* index out of range *)

Inductive outcome (A : Type) :=
| Ret (a : A)
| Panic (p : panic)
| OutOfFuel.

Arguments Ret {A} a.
Arguments Panic {A} p.
Arguments OutOfFuel {A}.

Definition M (A : Type) : Type := State -> outcome A * State.

Definition ret {A} (a : A) : M A := fun s => (Ret a, s).

Definition bind {A B} (m : M A) (k : A -> M B) : M B :=
  fun s =>
    match m s with
    | (Ret a, s') => k a s'
    | (Panic p, s') => (Panic p, s')
    | (OutOfFuel, s') => (OutOfFuel, s')
    end.

Definition throw {A} (p : panic) : M A := fun s => (Panic p, s).

Definition gets {A} (f : State -> A) : M A := fun s => (Ret (f s), s).

Definition modify (f : State -> State) : M unit := fun s => (Ret tt, f s).

Declare Scope go_scope.
Delimit Scope go_scope with go.
Notation "'let*' x ':=' m 'in' k" := (bind m (fun x => k))
  (at level 10, x pattern, m at level 100, k at level 200) : go_scope.
Notation "m ;;; k" := (bind m (fun _ => k))
  (at level 100, right associativity) : go_scope.
Open Scope go_scope.

(** Dereferencing a pointer: [nil] panics. *)
Definition deref {A} (p : option A) : M A :=
  match p with
  | Some a => ret a
  | None => throw NilDereference
  end.

(** Reading the [DatabaseContext] behind a [*DatabaseContext]. *)
Definition load_context (p : option loc) : M (loc * DatabaseContext) :=
  let* c := deref p in
  let* ctx := gets (fun s => contexts s !! c) in
  let* ctx := deref ctx in
  ret (c, ctx).

(** [make(map[...]...)]: a fresh, empty map. *)
Definition make_descmap : M loc :=
  fun s =>
    let m := fresh (dom (descmaps s)) in
    (Ret m, set_descmaps s (<[m := ∅]> (descmaps s))).

Definition make_relmap : M loc :=
  fun s =>
    let m := fresh (dom (relmaps s)) in
    (Ret m, set_relmaps s (<[m := ∅]> (relmaps s))).

(** Contents of a map value. *)
Definition descmap_at (s : State) (m : loc) : gmap string EntityDescription :=
  default ∅ (descmaps s !! m).

Definition relmap_at (s : State) (m : loc) : gmap string EntityRelationship :=
  default ∅ (relmaps s !! m).

(** ** Entity descriptions (bccdata.go, lines 37-49) *)

Definition RegisterEntityDescription (databaseContext : option loc)
    (entityDescription : EntityDescription) : M unit :=
  let* (c, ctx) := load_context databaseContext in
  let* m :=
    match EntityDescriptions ctx with
    | None =>
        let* m := make_descmap in
        modify (fun s => set_contexts s
                  (<[c := set_EntityDescriptions ctx (Some m)]> (contexts s))) ;;;
        ret m
    | Some m => ret m
    end in
  let entityDescription := set_Context entityDescription (Some c) in
  modify (fun s => set_descmaps s
            (<[m := <[Name entityDescription := entityDescription]> (descmap_at s m)]>
               (descmaps s))).

Definition EntityDescriptionForName (databaseContext : option loc)
    (entityName : string) : M EntityDescription :=
  let* (_, ctx) := load_context databaseContext in
  match EntityDescriptions ctx with
  | None => ret zeroEntityDescription
  | Some m =>
      gets (fun s => default zeroEntityDescription (descmap_at s m !! entityName))
  end.

(** ** Entity relationships (bccdata.go, lines 53-63)

    The receiver is a [*EntityDescription]; the description a method returns
    is the receiver's pointee after the call. *)

Definition RegisterRelationship (entityDescription : EntityDescription)
    (entityRelationship : EntityRelationship) : M EntityDescription :=
  let* (entityDescription, m) :=
    match Relationships entityDescription with
    | None =>
        let* m := make_relmap in
        ret (set_Relationships entityDescription (Some m), m)
    | Some m => ret (entityDescription, m)
    end in
  modify (fun s => set_relmaps s
            (<[m := <[EntityName entityRelationship := entityRelationship]> (relmap_at s m)]>
               (relmaps s))) ;;;
  ret entityDescription.

Definition RelationshipForName (entityDescription : EntityDescription)
    (entityName : string) : M EntityRelationship :=
  match Relationships entityDescription with
  | None => ret zeroEntityRelationship
  | Some m =>
      gets (fun s => default zeroEntityRelationship (relmap_at s m !! entityName))
  end.

(** ** fmt.Sprintf

    The fragment the source uses: literal text, the verb [%s] applied to
    string operands, and [%%].  Any other verb is outside the fragment
    ([None]).  A [%s] without operand prints [%!s(MISSING)]; operands left
    over are reported after the text, as Go does. *)

Definition sprintf_extra (a : list string) : string :=
  "%!(EXTRA " +:+ String.concat ", " (map (fun x => "string=" +:+ x) a) +:+ ")".

Fixpoint Sprintf (format : string) (a : list string) : option string :=
  match format with
  | EmptyString =>
      match a with
      | [] => Some ""
      | _ :: _ => Some (sprintf_extra a)
      end
  | String "%"%char (String "s"%char rest) =>
      match a with
      | x :: a' => (fun r => x +:+ r) <$> Sprintf rest a'
      | [] => (fun r => "%!s(MISSING)" +:+ r) <$> Sprintf rest []
      end
  | String "%"%char (String "%"%char rest) => String "%"%char <$> Sprintf rest a
  | String "%"%char _ => None
  | String c rest => String c <$> Sprintf rest a
  end.

(** The text of a [Sprintf] call of the source; all its formats are inside
    the fragment. *)
Definition sprintf (format : string) (a : list string) : string :=
  default "" (Sprintf format a).

(** ** The external world

    Each field answers one kind of call, given the calls made before it.
    database/sql returns either a live handle and a nil error, or a nil
    handle and a non-nil error: the answers are sums.  A scanner is code of
    the application and may itself panic. *)

Inductive scan_response :=
| ScanOk (scanSuccess : bool) (err : error)
| ScanPanic (p : panic).

Record World := mkWorld {
  begin_resp : list call -> db -> tx + string;
  stmt_resp : list call -> tx -> stmt -> stmt;
  stmt_exec_resp : list call -> stmt -> list value -> result + string;
  last_insert_id_resp : list call -> result -> Z + string;
  now_resp : list call -> Z;
  tx_exec_resp : list call -> tx -> string -> list value -> result + string;
  tx_query_resp : list call -> tx -> string -> list value -> rows + string;
  db_query_resp : list call -> db -> string -> list value -> rows + string;
  zero_instance_resp : list call -> factory -> option Entity;
  scan_resp : list call -> Entity -> option rows -> scan_response;
  rows_close_resp : list call -> rows -> error;
  stmt_close_resp : list call -> stmt -> error;
  commit_resp : list call -> tx -> error;
  rollback_resp : list call -> tx -> error
}.

(** A Go result pair [(handle, err)] from an answer. *)
Definition go_pair {A} (r : A + string) : option A * error :=
  match r with
  | inl a => (Some a, None)
  | inr e => (None, Some e)
  end.

(** A call: the answer is computed from the trace so far, then the call is
    recorded. *)
Definition ask {A} (c : call) (resp : list call -> A) : M A :=
  fun s => (Ret (resp (trace s)), set_trace s (trace s ++ [c])).

Module sql.
Section Calls.
Variable w : World.

(** Methods of database/sql dereference their receiver: on a nil handle
    they panic. *)

Definition DB_Begin (d : option db) : M (option tx * error) :=
  let* d := deref d in
  let* r := ask (DBBegin d) (fun tr => begin_resp w tr d) in
  ret (go_pair r).

Definition DB_Query (d : option db) (query : string) (args : list value)
    : M (option rows * error) :=
  let* d := deref d in
  let* r := ask (DBQuery d query args) (fun tr => db_query_resp w tr d query args) in
  ret (go_pair r).

Definition Tx_Stmt (t : option tx) (s : option stmt) : M (option stmt) :=
  let* t := deref t in
  let* s := deref s in
  let* r := ask (TxStmt t s) (fun tr => stmt_resp w tr t s) in
  ret (Some r).

Definition Tx_Exec (t : option tx) (query : string) (args : list value)
    : M (option result * error) :=
  let* t := deref t in
  let* r := ask (TxExec t query args) (fun tr => tx_exec_resp w tr t query args) in
  ret (go_pair r).

Definition Tx_Query (t : option tx) (query : string) (args : list value)
    : M (option rows * error) :=
  let* t := deref t in
  let* r := ask (TxQuery t query args) (fun tr => tx_query_resp w tr t query args) in
  ret (go_pair r).

Definition Tx_Commit (t : option tx) : M error :=
  let* t := deref t in
  ask (TxCommit t) (fun tr => commit_resp w tr t).

Definition Tx_Rollback (t : option tx) : M error :=
  let* t := deref t in
  ask (TxRollback t) (fun tr => rollback_resp w tr t).

Definition Stmt_Exec (s : option stmt) (args : list value)
    : M (option result * error) :=
  let* s := deref s in
  let* r := ask (StmtExec s args) (fun tr => stmt_exec_resp w tr s args) in
  ret (go_pair r).

Definition Stmt_Close (s : option stmt) : M error :=
  let* s := deref s in
  ask (StmtClose s) (fun tr => stmt_close_resp w tr s).

Definition Result_LastInsertId (r : option result) : M (Z * error) :=
  let* r := deref r in
  let* a := ask (ResultLastInsertId r) (fun tr => last_insert_id_resp w tr r) in
  ret (match a with
       | inl id => (id, None)
       | inr e => (0%Z, Some e)
       end).

Definition Rows_Close (r : option rows) : M error :=
  let* r := deref r in
  ask (RowsClose r) (fun tr => rows_close_resp w tr r).

(** [time.Now().Unix()] *)
Definition Now_Unix : M Z :=
  ask TimeNowUnix (fun tr => now_resp w tr).

End Calls.
End sql.

(** Running the deferred calls of a function, last registered first (the
    list is kept in running order).  Every deferred call runs, also while
    panicking; the last panic is the one that propagates. *)
Fixpoint run_deferred (ds : list (M error)) (p : option panic) : M unit :=
  match ds with
  | [] => match p with
          | None => ret tt
          | Some p => throw p
          end
  | d :: ds' =>
      fun s =>
        match d s with
        | (Ret _, s') => run_deferred ds' p s'
        | (Panic q, s') => run_deferred ds' (Some q) s'
        | (OutOfFuel, s') => (OutOfFuel, s')
        end
  end.

(** A function body [body] that has registered the deferred calls [ds] by
    the time it returns or panics. *)
Definition with_deferred {A} (ds : list (M error)) (body : M A) : M A :=
  fun s =>
    match body s with
    | (Ret a, s') => (run_deferred ds None ;;; ret a) s'
    | (Panic p, s') => (run_deferred ds (Some p) ;;; throw p) s'
    | (OutOfFuel, s') => (OutOfFuel, s')
    end.

(** ** The generic operations (bccdata.go, lines 67-244) *)

(** The variables of [Create] that are live at its label [cleanup]. *)
Record CreateVars := mkCreateVars {
  cv_transaction : option tx;
  cv_commitAtEnd : bool;
  cv_insertStatement : option stmt;
  cv_rows : option rows;
  cv_entity : option Entity;
  cv_err : error
}.

Section Engine.
Variable w : World.

(** [entityDescription.CreateZeroInstance()]: calling a nil func panics. *)
Definition call_CreateZeroInstance (d : EntityDescription) : M (option Entity) :=
  let* f := deref (CreateZeroInstance d) in
  ask (ZeroInstance f) (fun tr => zero_instance_resp w tr f).

(** [entity.ScanFromRow(rows)]: a method call on a nil interface panics. *)
Definition call_ScanFromRow (entity : option Entity) (r : option rows)
    : M (bool * error) :=
  let* e := deref entity in
  let* a := ask (ScanFromRow e r) (fun tr => scan_resp w tr e r) in
  match a with
  | ScanOk scanSuccess err => ret (scanSuccess, err)
  | ScanPanic p => throw p
  end.

(** Lines 92-123 of [Create]: from the re-bound insert statement to the
    scan, ending at the label [cleanup]. *)
Definition Create_steps (entityDescription : EntityDescription)
    (transaction : option tx) (commitAtEnd : bool) (args : list value)
    : M CreateVars :=
  let* insertStatement := sql.Tx_Stmt w transaction (InsertStatement entityDescription) in
  let* (result, err) := sql.Stmt_Exec w insertStatement args in
  match err with
  | Some _ => ret (mkCreateVars transaction commitAtEnd insertStatement None None err)
  | None =>
  let* (objectID, err) := sql.Result_LastInsertId w result in
  match err with
  | Some _ => ret (mkCreateVars transaction commitAtEnd insertStatement None None err)
  | None =>
  let tableName := TableName entityDescription in
  let* createdTime := sql.Now_Unix w in
  let updateCreatedDateSQL :=
    sprintf "UPDATE %s SET createdDate=? WHERE id=?" [tableName] in
  let* (result, err) :=
    sql.Tx_Exec w transaction updateCreatedDateSQL [VInt64 createdTime; VInt64 objectID] in
  match err with
  | Some _ => ret (mkCreateVars transaction commitAtEnd insertStatement None None err)
  | None =>
  let querySQL := sprintf "SELECT * FROM %s WHERE id=?" [tableName] in
  let* (rows, err) := sql.Tx_Query w transaction querySQL [VInt64 objectID] in
  match err with
  | Some _ => ret (mkCreateVars transaction commitAtEnd insertStatement rows None err)
  | None =>
  let* entity := call_CreateZeroInstance entityDescription in
  let* (scanSuccess, err) := call_ScanFromRow entity rows in
  if negb scanSuccess
  then ret (mkCreateVars transaction commitAtEnd insertStatement rows entity err)
  else ret (mkCreateVars transaction commitAtEnd insertStatement rows entity err)
  end end end end.

(** Lines 81-123. *)
Definition Create_body (entityDescription : EntityDescription)
    (transaction : option tx) (args : list value) : M CreateVars :=
  let commitAtEnd := false in
  match transaction with
  | None =>
      let* (_, ctx) := load_context (Context entityDescription) in
      let* (transaction, err) := sql.DB_Begin w (Database ctx) in
      let commitAtEnd := true in
      match err with
      | Some _ => ret (mkCreateVars transaction commitAtEnd None None None err)
      | None =>
          let commitAtEnd := true in
          Create_steps entityDescription transaction commitAtEnd args
      end
  | Some _ => Create_steps entityDescription transaction commitAtEnd args
  end.

(** Lines 125-142: the label [cleanup]. *)
Definition Create_cleanup (v : CreateVars) : M (option Entity * error) :=
  let deferred := [] in
  let deferred :=
    match cv_rows v with
    | Some _ => sql.Rows_Close w (cv_rows v) :: deferred
    | None => deferred
    end in
  let deferred :=
    match cv_insertStatement v with
    | Some _ => sql.Stmt_Close w (cv_insertStatement v) :: deferred
    | None => deferred
    end in
  with_deferred deferred
    ((if cv_commitAtEnd v
      then match cv_err v with
           | Some _ => sql.Tx_Rollback w (cv_transaction v) ;;; ret tt
           | None => sql.Tx_Commit w (cv_transaction v) ;;; ret tt
           end
      else ret tt) ;;;
     ret (cv_entity v, cv_err v)).

Definition Create (entityDescription : EntityDescription)
    (transaction : option tx) (args : list value) : M (option Entity * error) :=
  let* v := Create_body entityDescription transaction args in
  Create_cleanup v.

(** The loop of [CreateFromRows]; one unit of fuel per iteration. *)
Fixpoint CreateFromRows_loop (fuel : nat) (entityDescription : EntityDescription)
    (r : option rows) (entities : list Entity) : M (list Entity * error) :=
  match fuel with
  | O => fun s => (OutOfFuel, s)
  | S fuel' =>
      let* entity := call_CreateZeroInstance entityDescription in
      let* (scanSuccess, err) := call_ScanFromRow entity r in
      if negb scanSuccess
      then ret (entities, err)
      else CreateFromRows_loop fuel' entityDescription r
             (entities ++ option_list entity)
  end.

Definition CreateFromRows (fuel : nat) (entityDescription : EntityDescription)
    (r : option rows) : M (list Entity * error) :=
  CreateFromRows_loop fuel entityDescription r [].

Definition FindEntities (fuel : nat) (entityDescription : EntityDescription)
    (transaction : option tx) (keyName : option string) (v : value)
    : M (list Entity * error) :=
  let tableName := TableName entityDescription in
  let columnName :=
    match keyName with
    | None => PrimaryKey entityDescription
    | Some k => k
    end in
  let selectStatement := sprintf "SELECT * FROM %s WHERE %s=?" [tableName; columnName] in
  let* (rows, err) :=
    match transaction with
    | Some _ => sql.Tx_Query w transaction selectStatement [v]
    | None =>
        let* (_, ctx) := load_context (Context entityDescription) in
        sql.DB_Query w (Database ctx) selectStatement [v]
    end in
  let* (entities, err) :=
    match err with
    | Some _ => ret ([], err)
    | None => CreateFromRows fuel entityDescription rows
    end in
  with_deferred [sql.Rows_Close w rows] (ret (entities, err)).

Definition FindEntity (fuel : nat) (entityDescription : EntityDescription)
    (transaction : option tx) (keyName : option string) (v : value)
    : M (Entity * error) :=
  let* (entities, err) := FindEntities fuel entityDescription transaction keyName v in
  match entities with
  | [] => throw IndexOutOfRange
  | e :: _ => ret (e, err)
  end.

Definition FindRelatedEntity (fuel : nat) (entityDescription : EntityDescription)
    (transaction : option tx) (targetEntityName : string) (queryKey : string)
    (queryValue : value) : M (list Entity * error) :=
  let* relationship := RelationshipForName entityDescription targetEntityName in
  let* targetEntityDescription :=
    EntityDescriptionForName (Context entityDescription) targetEntityName in
  let joinTableName := JoinTableName relationship in
  let targetTableName := TableName targetEntityDescription in
  let joinTableForeignKey := ForeignKey relationship in
  let targetTableKey := TargetKey relationship in
  let selectStatement :=
    sprintf "SELECT %s.* FROM %s LEFT OUTER JOIN %s ON %s.%s=%s.%s WHERE %s.%s=?"
      [targetTableName; joinTableName; targetTableName; joinTableName;
       joinTableForeignKey; targetTableName; targetTableKey; joinTableName;
       queryKey] in
  let* (rows, err) :=
    match transaction with
    | Some _ => sql.Tx_Query w transaction selectStatement [queryValue]
    | None =>
        let* (_, ctx) := load_context (Context entityDescription) in
        sql.DB_Query w (Database ctx) selectStatement [queryValue]
    end in
  let* (entities, err) := CreateFromRows fuel targetEntityDescription rows in
  ret (entities, err).

End Engine.

(** * Vocabulary of the statements *)

(** Resolving a relationship through the context: the description registered
    under [descriptionName], then its relationship to [targetName]. *)
Definition lookup_relationship (databaseContext : option loc)
    (descriptionName targetName : string) : M EntityRelationship :=
  let* d := EntityDescriptionForName databaseContext descriptionName in
  RelationshipForName d targetName.

(** [entityName] is not a key of the context's mapping (which may be nil). *)
Definition description_unregistered (s : State) (ctx : DatabaseContext)
    (entityName : string) : Prop :=
  match EntityDescriptions ctx with
  | None => True
  | Some m => descmap_at s m !! entityName = None
  end.

(** [entityName] is not a key of the description's mapping (which may be nil). *)
Definition relationship_unregistered (s : State) (d : EntityDescription)
    (entityName : string) : Prop :=
  match Relationships d with
  | None => True
  | Some m => relmap_at s m !! entityName = None
  end.

(** Registering [r] on the caller's description [d] after [d] was registered
    in the context [c] does not change what the context resolves for it. *)
Definition hidden_after_registration (c : loc) (d : EntityDescription)
    (r : EntityRelationship) (s : State) : Prop :=
  forall s1 d' s2,
    RegisterEntityDescription (Some c) d s = (Ret tt, s1) ->
    RegisterRelationship d r s1 = (Ret d', s2) ->
    fst (lookup_relationship (Some c) (Name d) (EntityName r) s2)
    = fst (lookup_relationship (Some c) (Name d) (EntityName r) s1).

(** Registering [r] on the copy that [EntityDescriptionForName] returned does
    not change what the context resolves for it. *)
Definition copy_mutation_hidden (c : loc) (entityName : string)
    (r : EntityRelationship) (s : State) : Prop :=
  forall d d' s1,
    EntityDescriptionForName (Some c) entityName s = (Ret d, s) ->
    RegisterRelationship d r s = (Ret d', s1) ->
    fst (lookup_relationship (Some c) entityName (EntityName r) s1)
    = fst (lookup_relationship (Some c) entityName (EntityName r) s).

(** ** Traces *)

(** The state [s] after the calls [l]. *)
Definition add_calls (s : State) (l : list call) : State :=
  set_trace s (trace s ++ l).

(** The calls made between the states [s] and [s']. *)
Definition new_calls (s s' : State) : list call :=
  drop (length (trace s)) (trace s').

Definition is_tx_control (c : call) : bool :=
  match c with
  | DBBegin _ | TxCommit _ | TxRollback _ => true
  | _ => false
  end.

Definition is_close (c : call) : bool :=
  match c with
  | RowsClose _ | StmtClose _ => true
  | _ => false
  end.

(** The SQL texts sent to the datastore, in order. *)
Fixpoint statements_of (tr : list call) : list string :=
  match tr with
  | [] => []
  | TxExec _ q _ :: tr' => q :: statements_of tr'
  | TxQuery _ q _ :: tr' => q :: statements_of tr'
  | DBQuery _ q _ :: tr' => q :: statements_of tr'
  | _ :: tr' => statements_of tr'
  end.

(** The call that ends an owned transaction, decided by the error. *)
Definition end_of_transaction (t : tx) (err : error) : call :=
  match err with
  | None => TxCommit t
  | Some _ => TxRollback t
  end.

(** A call of the statement sequence of [Create]: neither transaction
    control nor a release. *)
Definition is_step (c : call) : bool :=
  negb (is_tx_control c) && negb (is_close c).

(** The releases [Create] has deferred when it reaches [cleanup], in
    running order. *)
Definition releases (v : CreateVars) : list call :=
  match cv_insertStatement v with
  | Some st => [StmtClose st]
  | None => []
  end ++
  match cv_rows v with
  | Some r => [RowsClose r]
  | None => []
  end.

(** ** The SQL templates, as the specification words them *)

Definition stamp_sql (table : string) : string :=
  "UPDATE " +:+ table +:+ " SET createdDate=? WHERE id=?".

Definition reselect_sql (table : string) : string :=
  "SELECT * FROM " +:+ table +:+ " WHERE id=?".

Definition find_sql (table column : string) : string :=
  "SELECT * FROM " +:+ table +:+ " WHERE " +:+ column +:+ "=?".

Definition related_find_sql (target_table join_table foreign_key target_key query_key : string)
    : string :=
  "SELECT " +:+ target_table +:+ ".* FROM " +:+ join_table +:+
  " LEFT OUTER JOIN " +:+ target_table +:+
  " ON " +:+ join_table +:+ "." +:+ foreign_key +:+ "=" +:+
  target_table +:+ "." +:+ target_key +:+
  " WHERE " +:+ join_table +:+ "." +:+ query_key +:+ "=?".

(** Statements that designate the row by the description's primary-key
    column. *)
Definition stamp_by_primary_key (d : EntityDescription) : string :=
  "UPDATE " +:+ TableName d +:+ " SET createdDate=? WHERE " +:+ PrimaryKey d +:+ "=?".

Definition reselect_by_primary_key (d : EntityDescription) : string :=
  find_sql (TableName d) (PrimaryKey d).

(** The column a find filters on: the given one, or the primary key. *)
Definition find_column (d : EntityDescription) (keyName : option string) : string :=
  match keyName with
  | None => PrimaryKey d
  | Some k => k
  end.

(** ** Behaviour of the world at a point of the trace *)

Section WorldFacts.
Variable w : World.

(** The transaction [Create] works in, and the calls made to obtain it:
    the caller's, or the one begun on the context's connection. *)
Definition active_transaction (d : EntityDescription) (transaction : option tx)
    (s : State) (t : tx) (pre : list call) : Prop :=
  match transaction with
  | Some t' => t' = t /\ pre = []
  | None =>
      exists c ctx dbh,
        Context d = Some c /\ contexts s !! c = Some ctx /\
        Database ctx = Some dbh /\
        begin_resp w (trace s) dbh = inl t /\ pre = [DBBegin dbh]
  end.

(** From the trace [tr] on, the insert of [Create] succeeds: the statement
    [st] re-bound to [t] is [st'], its execution yields [rs], whose
    generated key is [objectID]; the clock then reads [createdTime]. *)
Definition insert_succeeds (t : tx) (st : stmt) (args : list value)
    (tr : list call) (st' : stmt) (rs : result) (objectID createdTime : Z) : Prop :=
  stmt_resp w tr t st = st' /\
  stmt_exec_resp w (tr ++ [TxStmt t st]) st' args = inl rs /\
  last_insert_id_resp w (tr ++ [TxStmt t st; StmtExec st' args]) rs = inl objectID /\
  now_resp w (tr ++ [TxStmt t st; StmtExec st' args; ResultLastInsertId rs])
  = createdTime.

(** From the trace [tr] on, the factory [f] and the scanner deliver the
    entities [es] from the cursor [r], one per call, and then report the
    cursor exhausted: false, with a nil error. *)
Fixpoint drains (f : factory) (r : option rows) (tr : list call)
    (es : list Entity) : Prop :=
  match es with
  | [] =>
      exists e,
        zero_instance_resp w tr f = Some e /\
        scan_resp w (tr ++ [ZeroInstance f]) e r = ScanOk false None
  | e :: es' =>
      zero_instance_resp w tr f = Some e /\
      (exists err, scan_resp w (tr ++ [ZeroInstance f]) e r = ScanOk true err) /\
      drains f r (tr ++ [ZeroInstance f; ScanFromRow e r]) es'
  end.

(** The calls of such a drain. *)
Fixpoint drain_calls (f : factory) (r : option rows) (tr : list call)
    (es : list Entity) : list call :=
  match es with
  | [] =>
      match zero_instance_resp w tr f with
      | Some e => [ZeroInstance f; ScanFromRow e r]
      | None => [ZeroInstance f]
      end
  | e :: es' =>
      ZeroInstance f :: ScanFromRow e r ::
      drain_calls f r (tr ++ [ZeroInstance f; ScanFromRow e r]) es'
  end.

(** The query of a find, on the transaction or on the context's
    connection, answers with the cursor [r]. *)
Definition query_yields (d : EntityDescription) (transaction : option tx)
    (s : State) (query : string) (v : value) (r : rows) (q : call) : Prop :=
  match transaction with
  | Some t => tx_query_resp w (trace s) t query [v] = inl r /\ q = TxQuery t query [v]
  | None =>
      exists c ctx dbh,
        Context d = Some c /\ contexts s !! c = Some ctx /\
        Database ctx = Some dbh /\
        db_query_resp w (trace s) dbh query [v] = inl r /\ q = DBQuery dbh query [v]
  end.

(** The query step that [FindEntities] and [FindRelatedEntity] share. *)
Definition find_query (d : EntityDescription) (transaction : option tx)
    (query : string) (v : value) : M (option rows * error) :=
  match transaction with
  | Some _ => sql.Tx_Query w transaction query [v]
  | None =>
      let* (_, ctx) := load_context (Context d) in
      sql.DB_Query w (Database ctx) query [v]
  end.

End WorldFacts.

(** The calls of [Create]'s insert, and the two statements that follow it. *)
Definition insert_calls (t : tx) (st st' : stmt) (args : list value) (rs : result)
    : list call :=
  [TxStmt t st; StmtExec st' args; ResultLastInsertId rs; TimeNowUnix].

Definition stamp_call (t : tx) (table : string) (createdTime objectID : Z) : call :=
  TxExec t (stamp_sql table) [VInt64 createdTime; VInt64 objectID].

Definition reselect_call (t : tx) (table : string) (objectID : Z) : call :=
  TxQuery t (reselect_sql table) [VInt64 objectID].

(** The claim of C7 at one input: the statements [Create] sends designate the
    row by the description's primary-key column. *)
Definition Create_keys_on_primary_key (w : World) (d : EntityDescription)
    (transaction : option tx) (args : list value) (s : State) : Prop :=
  statements_of (new_calls s (snd (Create w d transaction args s)))
  = [stamp_by_primary_key d; reselect_by_primary_key d].

(** ** Sample inputs *)

Module Sample.

Definition context : DatabaseContext := mkDatabaseContext (Some 0) None.

(** One context at address 1, nothing registered, no call made. *)
Definition state : State := mkState {[ 1 := context ]} ∅ ∅ [].

Definition lists : EntityDescription :=
  mkEntityDescription "List" "lists" "id" None (Some 1) (Some 1) None.

Definition placemarks : EntityDescription :=
  mkEntityDescription "Placemark" "placemarks" "id" None (Some 2) (Some 2) None.

Definition lists_placemarks : EntityRelationship :=
  mkEntityRelationship "Placemark" "lists_placemarks" "placemarksID" "id".

Definition lists_users : EntityRelationship :=
  mkEntityRelationship "User" "lists_users" "usersID" "id".

(** [lists] after [RegisterRelationship(lists_placemarks)]: its mapping is
    the map at address 0. *)
Definition lists_related : EntityDescription := set_Relationships lists (Some 0).

Definition state_related : State :=
  mkState {[ 1 := context ]} ∅ {[ 0 := {[ "Placemark" := lists_placemarks ]} ]} [].

(** [lists] as the context at address 1 holds it. *)
Definition lists_registered : EntityDescription := set_Context lists (Some 1).

(** A table whose key column is not called [id]. *)
Definition users : EntityDescription :=
  mkEntityDescription "User" "users" "userID" None (Some 3) (Some 3) (Some 1).

Definition count_calls (p : call -> bool) (tr : list call) : nat :=
  length (filter (fun c => p c = true) tr).

Definition is_ZeroInstance (c : call) : bool :=
  match c with ZeroInstance _ => true | _ => false end.

Definition is_ScanFromRow (c : call) : bool :=
  match c with ScanFromRow _ _ => true | _ => false end.

(** A healthy datastore whose cursors hold [n] rows.  Every factory call
    yields a new entity; the scanner reads [rows.Next()], which panics on
    a nil cursor. *)
Definition world (n : nat) : World := {|
  begin_resp _ _ := inl 7;
  stmt_resp _ _ st := 100 + st;
  stmt_exec_resp _ _ _ := inl 3;
  last_insert_id_resp _ _ := inl 42%Z;
  now_resp _ := 1700000000%Z;
  tx_exec_resp _ _ _ _ := inl 4;
  tx_query_resp _ _ _ _ := inl 5;
  db_query_resp _ _ _ _ := inl 6;
  zero_instance_resp tr _ := Some (count_calls is_ZeroInstance tr);
  scan_resp tr _ r :=
    match r with
    | None => ScanPanic NilDereference
    | Some _ => ScanOk (Nat.ltb (count_calls is_ScanFromRow tr) n) None
    end;
  rows_close_resp _ _ := None;
  stmt_close_resp _ _ := None;
  commit_resp _ _ := None;
  rollback_resp _ _ := None
|}.

(** A datastore that is down: nothing can be begun or queried.  The
    scanner checks its cursor and reports no row on a nil one. *)
Definition world_down : World := {|
  begin_resp _ _ := inr "connection refused";
  stmt_resp _ _ st := 100 + st;
  stmt_exec_resp _ _ _ := inr "connection refused";
  last_insert_id_resp _ _ := inr "connection refused";
  now_resp _ := 1700000000%Z;
  tx_exec_resp _ _ _ _ := inr "connection refused";
  tx_query_resp _ _ _ _ := inr "connection refused";
  db_query_resp _ _ _ _ := inr "connection refused";
  zero_instance_resp tr _ := Some (count_calls is_ZeroInstance tr);
  scan_resp _ _ _ := ScanOk false None;
  rows_close_resp _ _ := None;
  stmt_close_resp _ _ := None;
  commit_resp _ _ := None;
  rollback_resp _ _ := None
|}.

(** The context at address 1 with [lists] (related to placemarks) and
    [placemarks] registered in the map at address 0. *)
Definition lists_linked : EntityDescription :=
  set_Context lists_related (Some 1).

Definition placemarks_registered : EntityDescription :=
  set_Context placemarks (Some 1).

Definition state_registered : State :=
  mkState {[ 1 := mkDatabaseContext (Some 0) (Some 0) ]}
          {[ 0 := {[ "List" := lists_linked; "Placemark" := placemarks_registered ]} ]}
          {[ 0 := {[ "Placemark" := lists_placemarks ]} ]}
          [].

End Sample.

(** * Vocabulary of the further properties *)

(** Every description in the mapping of the context at [c] refers back to
    [c]. *)
Definition back_references (s : State) (c : loc) : Prop :=
  forall ctx m entityName d,
    contexts s !! c = Some ctx ->
    EntityDescriptions ctx = Some m ->
    descmap_at s m !! entityName = Some d ->
    Context d = Some c.

(** The registry part of two states is the same. *)
Definition same_registry (s s' : State) : Prop :=
  contexts s' = contexts s /\ descmaps s' = descmaps s /\ relmaps s' = relmaps s.

(** From every state, [m] only appends calls that satisfy [P]. *)
Definition extends (P : call -> bool) {A} (m : M A) : Prop :=
  forall s, exists l, snd (m s) = add_calls s l /\ Forall (fun c => P c = true) l.

Definition any_call (c : call) : bool := true.

(** The calls a find may make: a query, the factory, the scanner, a close. *)
Definition is_find_call (c : call) : bool :=
  match c with
  | TxQuery _ _ _ | DBQuery _ _ _ | ZeroInstance _ | ScanFromRow _ _ | RowsClose _ => true
  | _ => false
  end.

Definition is_materialize (c : call) : bool :=
  match c with
  | ZeroInstance _ | ScanFromRow _ _ => true
  | _ => false
  end.

Definition not_close (c : call) : bool := negb (is_close c).

(** The call that ends the transaction when [Create] began it itself. *)
Definition owned_end (transaction : option tx) (t : tx) (err : error) : list call :=
  match transaction with
  | None => [end_of_transaction t err]
  | Some _ => []
  end.

Section FurtherWorldFacts.
Variable w : World.

(** From the trace [tr] on, the factory [f] and the scanner deliver the
    entities [es] from the cursor [r] and then the scanner reports no row
    together with the error [last]. *)
Fixpoint drains_until (f : factory) (r : option rows) (tr : list call)
    (es : list Entity) (last : error) : Prop :=
  match es with
  | [] =>
      exists e,
        zero_instance_resp w tr f = Some e /\
        scan_resp w (tr ++ [ZeroInstance f]) e r = ScanOk false last
  | e :: es' =>
      zero_instance_resp w tr f = Some e /\
      (exists err, scan_resp w (tr ++ [ZeroInstance f]) e r = ScanOk true err) /\
      drains_until f r (tr ++ [ZeroInstance f; ScanFromRow e r]) es' last
  end.

(** The factory [f] always delivers an entity and the scanner never reports
    the cursor [r] exhausted. *)
Definition never_exhausted (f : factory) (r : option rows) : Prop :=
  (forall tr, exists e, zero_instance_resp w tr f = Some e) /\
  (forall tr e, exists err, scan_resp w tr e r = ScanOk true err).

(** From the trace [tr] on, the stamp of [Create] succeeds, and so does the
    re-select, which answers with the cursor [r]. *)
Definition stamp_succeeds (t : tx) (table : string) (createdTime objectID : Z)
    (tr : list call) : Prop :=
  exists rs, tx_exec_resp w tr t (stamp_sql table) [VInt64 createdTime; VInt64 objectID]
             = inl rs.

Definition reselect_yields (t : tx) (table : string) (objectID : Z)
    (tr : list call) (r : rows) : Prop :=
  tx_query_resp w tr t (reselect_sql table) [VInt64 objectID] = inl r.

End FurtherWorldFacts.

(** ** Further sample inputs *)

Module Faulty.

Definition answer {A} (ok : bool) (a : A) : A + string :=
  if ok then inl a else inr "disk full".

(** A datastore of which chosen calls fail: the insert, the stamp, the
    re-select.  Its cursors hold [n] rows; after them the scanner reports
    no row together with [last]. *)
Definition world (exec_ok stamp_ok query_ok : bool) (n : nat) (last : error) : World := {|
  begin_resp _ _ := inl 7;
  stmt_resp _ _ st := 100 + st;
  stmt_exec_resp _ _ _ := answer exec_ok 3;
  last_insert_id_resp _ _ := inl 42%Z;
  now_resp _ := 1700000000%Z;
  tx_exec_resp _ _ _ _ := answer stamp_ok 4;
  tx_query_resp _ _ _ _ := answer query_ok 5;
  db_query_resp _ _ _ _ := answer query_ok 6;
  zero_instance_resp tr _ := Some (Sample.count_calls Sample.is_ZeroInstance tr);
  scan_resp tr _ r :=
    if Nat.ltb (Sample.count_calls Sample.is_ScanFromRow tr) n
    then ScanOk true None
    else ScanOk false last;
  rows_close_resp _ _ := None;
  stmt_close_resp _ _ := None;
  commit_resp _ _ := None;
  rollback_resp _ _ := None
|}.

(** A scanner that reports a row on every call. *)
Definition endless : World := {|
  begin_resp _ _ := inl 7;
  stmt_resp _ _ st := 100 + st;
  stmt_exec_resp _ _ _ := inl 3;
  last_insert_id_resp _ _ := inl 42%Z;
  now_resp _ := 1700000000%Z;
  tx_exec_resp _ _ _ _ := inl 4;
  tx_query_resp _ _ _ _ := inl 5;
  db_query_resp _ _ _ _ := inl 6;
  zero_instance_resp tr _ := Some (Sample.count_calls Sample.is_ZeroInstance tr);
  scan_resp _ _ _ := ScanOk true None;
  rows_close_resp _ _ := None;
  stmt_close_resp _ _ := None;
  commit_resp _ _ := None;
  rollback_resp _ _ := None
|}.

(** A description of [lists] whose factory was left nil. *)
Definition no_factory : EntityDescription :=
  mkEntityDescription "List" "lists" "id" None (Some 1) None None.

(** Two contexts, at addresses 1 and 2; the first has [lists] registered in
    the map at address 0, the second has no mapping yet. *)
Definition two_contexts : State :=
  mkState {[ 1 := mkDatabaseContext (Some 0) (Some 0);
             2 := mkDatabaseContext (Some 0) None ]}
          {[ 0 := {[ "List" := Sample.lists_registered ]} ]}
          ∅ [].

End Faulty.

(** The calls of a find after its query: factory, scanner, close. *)
Definition is_after_query (c : call) : bool :=
  is_materialize c || is_close c.

(** From the trace [tr] on, the insert of [Create] fails with [e]: the
    statement [st] re-bound to [t] is [st'], and its execution fails. *)
Definition insert_fails (w : World) (t : tx) (st : stmt) (args : list value)
    (tr : list call) (st' : stmt) (e : string) : Prop :=
  stmt_resp w tr t st = st' /\
  stmt_exec_resp w (tr ++ [TxStmt t st]) st' args = inr e.

(** * Vocabulary of the answers and of the query of a find *)

(** The error the world answers to the call [c] made after the trace [tr];
    [None] when it answers without error. *)
Definition answered_error (w : World) (tr : list call) (c : call) : error :=
  match c with
  | DBBegin dbh =>
      match begin_resp w tr dbh with inr e => Some e | inl _ => None end
  | StmtExec st args =>
      match stmt_exec_resp w tr st args with inr e => Some e | inl _ => None end
  | ResultLastInsertId rs =>
      match last_insert_id_resp w tr rs with inr e => Some e | inl _ => None end
  | TxExec t query args =>
      match tx_exec_resp w tr t query args with inr e => Some e | inl _ => None end
  | TxQuery t query args =>
      match tx_query_resp w tr t query args with inr e => Some e | inl _ => None end
  | DBQuery dbh query args =>
      match db_query_resp w tr dbh query args with inr e => Some e | inl _ => None end
  | ScanFromRow e r =>
      match scan_resp w tr e r with ScanOk _ err => err | ScanPanic _ => None end
  | _ => None
  end.

(** The errors the world answers to the calls [calls], made one after the
    other from the trace [tr] on. *)
Fixpoint answered_errors (w : World) (tr : list call) (calls : list call)
    : list string :=
  match calls with
  | [] => []
  | c :: calls' =>
      option_list (answered_error w tr c) ++ answered_errors w (tr ++ [c]) calls'
  end.

(** [q] is the query call of a find for the text [query] and the value [v]:
    on the caller's transaction, or else on the connection of the
    description's context, which must then be reachable. *)
Definition query_sent (d : EntityDescription) (transaction : option tx) (s : State)
    (query : string) (v : value) (q : call) : Prop :=
  match transaction with
  | Some t => q = TxQuery t query [v]
  | None =>
      exists c ctx dbh,
        Context d = Some c /\ contexts s !! c = Some ctx /\
        Database ctx = Some dbh /\ q = DBQuery dbh query [v]
  end.

(** * The registries *)

Ltac go_unfold :=
  unfold lookup_relationship, RegisterEntityDescription, EntityDescriptionForName,
    RegisterRelationship, RelationshipForName, load_context, make_descmap,
    make_relmap, bind, ret, throw, gets, modify, deref in *.

Lemma EntityDescriptionForName_live c ctx name s :
  contexts s !! c = Some ctx ->
  EntityDescriptionForName (Some c) name s
  = (Ret (match EntityDescriptions ctx with
          | None => zeroEntityDescription
          | Some m => default zeroEntityDescription (descmap_at s m !! name)
          end), s).
Proof.
  intros Hc. go_unfold. simpl. rewrite Hc. simpl.
  destruct (EntityDescriptions ctx); reflexivity.
Qed.

Lemma RelationshipForName_eq d name s :
  RelationshipForName d name s
  = (Ret (match Relationships d with
          | None => zeroEntityRelationship
          | Some m => default zeroEntityRelationship (relmap_at s m !! name)
          end), s).
Proof. go_unfold. destruct (Relationships d); reflexivity. Qed.

(** What a registration does to the store. *)
Lemma RegisterEntityDescription_live c ctx d s :
  contexts s !! c = Some ctx ->
  exists m s1,
    RegisterEntityDescription (Some c) d s = (Ret tt, s1) /\
    contexts s1 !! c = Some (set_EntityDescriptions ctx (Some m)) /\
    descmap_at s1 m = <[Name d := set_Context d (Some c)]> (descmap_at s m) /\
    relmaps s1 = relmaps s /\
    trace s1 = trace s.
Proof.
  intros Hc. go_unfold. simpl. rewrite Hc. simpl.
  destruct ctx as [dbh [m|]]; simpl.
  - exists m. eexists. split; [reflexivity|]. simpl.
    unfold descmap_at at 1. simpl. rewrite lookup_insert_eq. auto.
  - exists (fresh (dom (descmaps s))). eexists. split; [reflexivity|]. simpl.
    rewrite lookup_insert_eq. unfold descmap_at. simpl.
    rewrite !lookup_insert_eq. simpl.
    assert (descmaps s !! fresh (dom (descmaps s)) = None) as ->.
    { apply not_elem_of_dom, is_fresh. }
    auto.
Qed.

Lemma RegisterRelationship_eq d r s :
  exists m s1,
    RegisterRelationship d r s = (Ret (set_Relationships d (Some m)), s1) /\
    relmap_at s1 m = <[EntityName r := r]> (relmap_at s m) /\
    contexts s1 = contexts s /\
    descmaps s1 = descmaps s /\
    trace s1 = trace s /\
    match Relationships d with
    | Some m' => m = m'
    | None => relmaps s !! m = None
    end.
Proof.
  go_unfold. destruct d as [n t k [m|] i z cx]; simpl.
  - exists m. eexists. split; [reflexivity|]. simpl.
    unfold relmap_at at 1. simpl. rewrite lookup_insert_eq. auto.
  - exists (fresh (dom (relmaps s))). eexists. split; [reflexivity|]. simpl.
    unfold relmap_at. simpl. rewrite !lookup_insert_eq. simpl.
    assert (relmaps s !! fresh (dom (relmaps s)) = None) as Hf.
    { apply not_elem_of_dom, is_fresh. }
    rewrite Hf. auto.
Qed.

(** C4. After [RegisterRelationship(R)] on a description,
    [RelationshipForName] of R's target entity name returns R unchanged; and
    after [RegisterEntityDescription(D)] on a context C,
    [EntityDescriptionForName(D.Name)] returns a description with D's table
    name, primary key and relationships (the same mapping, with unchanged
    contents) and with C as its context; a later registration under the same
    name replaces the earlier one. *)
Theorem register_then_lookup (c : loc) (ctx : DatabaseContext)
    (d : EntityDescription) (r : EntityRelationship) (s : State) :
  contexts s !! c = Some ctx ->
  (exists d' s1,
      RegisterRelationship d r s = (Ret d', s1) /\
      RelationshipForName d' (EntityName r) s1 = (Ret r, s1)) /\
  (exists s1 d',
      RegisterEntityDescription (Some c) d s = (Ret tt, s1) /\
      EntityDescriptionForName (Some c) (Name d) s1 = (Ret d', s1) /\
      d' = set_Context d (Some c) /\
      TableName d' = TableName d /\
      PrimaryKey d' = PrimaryKey d /\
      Relationships d' = Relationships d /\
      relmaps s1 = relmaps s /\
      Context d' = Some c) /\
  (forall d2, Name d2 = Name d ->
      exists s1 s2,
        RegisterEntityDescription (Some c) d s = (Ret tt, s1) /\
        RegisterEntityDescription (Some c) d2 s1 = (Ret tt, s2) /\
        EntityDescriptionForName (Some c) (Name d) s2
        = (Ret (set_Context d2 (Some c)), s2)).
Proof.
  intros Hc. split; [|split].
  - destruct (RegisterRelationship_eq d r s) as (m & s1 & Hr & Hm & _).
    eexists _, s1. split; [exact Hr|].
    rewrite RelationshipForName_eq. simpl. rewrite Hm, lookup_insert_eq. reflexivity.
  - destruct (RegisterEntityDescription_live c ctx d s Hc)
      as (m & s1 & Hr & Hc1 & Hm & Hrel & _).
    exists s1, (set_Context d (Some c)). split; [exact Hr|].
    rewrite (EntityDescriptionForName_live _ _ _ _ Hc1). simpl.
    rewrite Hm, lookup_insert_eq. simpl. auto 10.
  - intros d2 Hn.
    destruct (RegisterEntityDescription_live c ctx d s Hc)
      as (m & s1 & Hr & Hc1 & _).
    destruct (RegisterEntityDescription_live c _ d2 s1 Hc1)
      as (m2 & s2 & Hr2 & Hc2 & Hm2 & _).
    exists s1, s2. split; [exact Hr|]. split; [exact Hr2|].
    rewrite (EntityDescriptionForName_live _ _ _ _ Hc2). simpl.
    rewrite Hm2, <- Hn, lookup_insert_eq. reflexivity.
Qed.

Lemma register_then_lookup_witness :
  contexts Sample.state !! 1 = Some Sample.context /\
  exists d' s1,
    RegisterRelationship Sample.lists Sample.lists_placemarks Sample.state = (Ret d', s1) /\
    RelationshipForName d' "Placemark" s1 = (Ret Sample.lists_placemarks, s1).
Proof.
  split; [reflexivity|].
  exact (proj1 (register_then_lookup 1 Sample.context Sample.lists
                  Sample.lists_placemarks Sample.state eq_refl)).
Defined.

(** C9. A lookup of a name that is not a key of the mapping, or in a mapping
    that was never initialized, returns the zero value and leaves the store
    as it was; the result carries neither an error nor a presence flag.
    Each lookup is stated under its own condition: a name that misses among
    a description's relationships may well be a registered entity. *)
Theorem lookup_miss_returns_zero (d : EntityDescription) (entityName : string)
    (s : State) :
  (forall c ctx,
      contexts s !! c = Some ctx ->
      description_unregistered s ctx entityName ->
      EntityDescriptionForName (Some c) entityName s = (Ret zeroEntityDescription, s)) /\
  (relationship_unregistered s d entityName ->
   RelationshipForName d entityName s = (Ret zeroEntityRelationship, s)).
Proof.
  split.
  - intros c ctx Hc Hd. rewrite (EntityDescriptionForName_live _ _ _ _ Hc).
    unfold description_unregistered in Hd.
    destruct (EntityDescriptions ctx); [rewrite Hd|]; reflexivity.
  - intros Hr. rewrite RelationshipForName_eq.
    unfold relationship_unregistered in Hr.
    destruct (Relationships d); [rewrite Hr|]; reflexivity.
Qed.

Lemma lookup_miss_returns_zero_witness :
  contexts Sample.state_registered !! 1 = Some (mkDatabaseContext (Some 0) (Some 0)) /\
  description_unregistered Sample.state_registered
    (mkDatabaseContext (Some 0) (Some 0)) "User" /\
  relationship_unregistered Sample.state_registered Sample.lists_linked "List" /\
  EntityDescriptionForName (Some 1) "User" Sample.state_registered
  = (Ret zeroEntityDescription, Sample.state_registered) /\
  RelationshipForName Sample.lists_linked "List" Sample.state_registered
  = (Ret zeroEntityRelationship, Sample.state_registered) /\
  EntityDescriptionForName (Some 1) "List" Sample.state_registered
  = (Ret Sample.lists_linked, Sample.state_registered).
Proof.
  assert (H1 : contexts Sample.state_registered !! 1
               = Some (mkDatabaseContext (Some 0) (Some 0))) by reflexivity.
  assert (H2 : description_unregistered Sample.state_registered
                 (mkDatabaseContext (Some 0) (Some 0)) "User") by reflexivity.
  assert (H3 : relationship_unregistered Sample.state_registered Sample.lists_linked
                 "List") by reflexivity.
  split; [exact H1|]. split; [exact H2|]. split; [exact H3|].
  split; [|split].
  - exact (proj1 (lookup_miss_returns_zero Sample.lists_linked "User"
                    Sample.state_registered) 1 _ H1 H2).
  - exact (proj2 (lookup_miss_returns_zero Sample.lists_linked "List"
                    Sample.state_registered) H3).
  - vm_compute. reflexivity.
Defined.

Lemma lookup_relationship_live c ctx dn rn s :
  contexts s !! c = Some ctx ->
  lookup_relationship (Some c) dn rn s
  = (Ret (match Relationships
                  (match EntityDescriptions ctx with
                   | None => zeroEntityDescription
                   | Some m => default zeroEntityDescription (descmap_at s m !! dn)
                   end) with
          | None => zeroEntityRelationship
          | Some m => default zeroEntityRelationship (relmap_at s m !! rn)
          end), s).
Proof.
  intros Hc. unfold lookup_relationship, bind.
  rewrite (EntityDescriptionForName_live _ _ _ _ Hc).
  apply RelationshipForName_eq.
Qed.

Lemma descmap_at_ext s s' m : descmaps s' = descmaps s -> descmap_at s' m = descmap_at s m.
Proof. unfold descmap_at. intros ->. reflexivity. Qed.

(** The claim of C10 fails once the description's mapping exists: the copy in
    the registry shares it, and a relationship registered afterwards on the
    caller's description is resolved through the context. *)
Lemma shared_mapping_is_visible :
  ~ hidden_after_registration 1 Sample.lists_related Sample.lists_users
      Sample.state_related.
Proof.
  intros H.
  destruct (RegisterEntityDescription_live 1 Sample.context Sample.lists_related
              Sample.state_related eq_refl) as (m & s1 & H1 & _).
  destruct (RegisterRelationship_eq Sample.lists_related Sample.lists_users s1)
    as (m2 & s2 & H2 & _).
  specialize (H _ _ _ H1 H2).
  revert H1 H2 H. vm_compute. intros H1 H2 H.
  injection H1 as <-. injection H2 as <- <-.
  vm_compute in H. discriminate H.
Qed.

(** C10, amended. The registry holds a copy of the description's fields, and
    the copy shares the description's relationship mapping.  While that
    mapping is nil, [RegisterRelationship] on the caller's description after
    registration, or on a description returned by
    [EntityDescriptionForName], creates a mapping for that value alone and
    is not visible through the context; once the mapping exists, a
    relationship registered on the caller's description after registration
    is resolved through the context. *)
Theorem registration_shares_the_mapping (c : loc) (ctx : DatabaseContext)
    (d : EntityDescription) (r : EntityRelationship) (s : State) :
  contexts s !! c = Some ctx ->
  (Relationships d = None -> hidden_after_registration c d r s) /\
  (forall entityName d0,
      EntityDescriptionForName (Some c) entityName s = (Ret d0, s) ->
      Relationships d0 = None ->
      copy_mutation_hidden c entityName r s) /\
  (forall m s1 d' s2,
      Relationships d = Some m ->
      RegisterEntityDescription (Some c) d s = (Ret tt, s1) ->
      RegisterRelationship d r s1 = (Ret d', s2) ->
      lookup_relationship (Some c) (Name d) (EntityName r) s2 = (Ret r, s2)).
Proof.
  intros Hc. split; [|split].
  - intros Hnil s1 d' s2 H1 H2.
    destruct (RegisterEntityDescription_live c ctx d s Hc)
      as (m & s1' & Hr & Hc1 & Hm & _).
    rewrite H1 in Hr. injection Hr as <-.
    destruct (RegisterRelationship_eq d r s1) as (m2 & s2' & Hr2 & _ & Hc2 & Hd2 & _).
    rewrite H2 in Hr2. injection Hr2 as _ <-.
    rewrite (lookup_relationship_live _ _ _ _ s1 Hc1).
    rewrite <- Hc2 in Hc1. rewrite (lookup_relationship_live _ _ _ _ s2 Hc1).
    simpl. rewrite (descmap_at_ext _ _ _ Hd2), Hm, lookup_insert_eq. simpl.
    rewrite Hnil. reflexivity.
  - intros entityName d0 H0 Hnil d1 d' s1 H1 H2.
    rewrite H0 in H1. injection H1 as <-.
    rewrite (EntityDescriptionForName_live _ _ _ _ Hc) in H0. injection H0 as H0.
    destruct (RegisterRelationship_eq d0 r s) as (m2 & s2' & Hr2 & _ & Hc2 & Hd2 & _).
    rewrite H2 in Hr2. injection Hr2 as _ <-.
    rewrite (lookup_relationship_live _ _ _ _ s Hc).
    rewrite <- Hc2 in Hc. rewrite (lookup_relationship_live _ _ _ _ s1 Hc).
    simpl. destruct (EntityDescriptions ctx) as [m|].
    + rewrite (descmap_at_ext _ _ _ Hd2), H0, Hnil. reflexivity.
    + reflexivity.
  - intros m0 s1 d' s2 Hsome H1 H2.
    destruct (RegisterEntityDescription_live c ctx d s Hc)
      as (m & s1' & Hr & Hc1 & Hm & _).
    rewrite H1 in Hr. injection Hr as <-.
    destruct (RegisterRelationship_eq d r s1) as (m2 & s2' & Hr2 & Hm2 & Hc2 & Hd2 & _ & Hsh).
    rewrite H2 in Hr2. injection Hr2 as _ <-.
    rewrite Hsome in Hsh. subst m2.
    rewrite <- Hc2 in Hc1. rewrite (lookup_relationship_live _ _ _ _ s2 Hc1).
    simpl. rewrite (descmap_at_ext _ _ _ Hd2), Hm, lookup_insert_eq. simpl.
    rewrite Hsome, Hm2, lookup_insert_eq. reflexivity.
Qed.

Lemma registration_shares_the_mapping_witness :
  contexts Sample.state !! 1 = Some Sample.context /\
  hidden_after_registration 1 Sample.lists Sample.lists_users Sample.state.
Proof.
  split; [reflexivity|].
  exact (proj1 (registration_shares_the_mapping 1 Sample.context Sample.lists
                  Sample.lists_users Sample.state eq_refl) eq_refl).
Defined.

(** * The generic operations *)

Lemma add_calls_nil s : add_calls s [] = s.
Proof. destruct s. unfold add_calls, set_trace. simpl. rewrite app_nil_r. reflexivity. Qed.

Lemma add_calls_app s l1 l2 : add_calls (add_calls s l1) l2 = add_calls s (l1 ++ l2).
Proof. unfold add_calls, set_trace. simpl. rewrite app_assoc. reflexivity. Qed.

Lemma trace_add_calls s l : trace (add_calls s l) = trace s ++ l.
Proof. reflexivity. Qed.

Lemma contexts_add_calls s l : contexts (add_calls s l) = contexts s.
Proof. reflexivity. Qed.

Lemma new_calls_add_calls s l : new_calls s (add_calls s l) = l.
Proof. unfold new_calls. simpl. apply drop_app_length. Qed.

Lemma ask_eq {A} (c : call) (resp : list call -> A) s :
  ask c resp s = (Ret (resp (trace s)), add_calls s [c]).
Proof. reflexivity. Qed.

Section EngineFacts.
Variable w : World.

Lemma call_CreateZeroInstance_eq d f s :
  CreateZeroInstance d = Some f ->
  call_CreateZeroInstance w d s
  = (Ret (zero_instance_resp w (trace s) f), add_calls s [ZeroInstance f]).
Proof. intros H. unfold call_CreateZeroInstance, bind, deref. rewrite H. reflexivity. Qed.

Lemma call_ScanFromRow_eq e r s :
  call_ScanFromRow w (Some e) r s
  = (match scan_resp w (trace s) e r with
     | ScanOk b err => Ret (b, err)
     | ScanPanic p => Panic p
     end, add_calls s [ScanFromRow e r]).
Proof.
  unfold call_ScanFromRow, bind, deref, ret, throw, ask. simpl.
  destruct (scan_resp w (trace s) e r); reflexivity.
Qed.

(** The loop of [CreateFromRows] on a cursor that drains: with more fuel
    than rows it returns the entities in arrival order and a nil error. *)
Lemma CreateFromRows_loop_drains d f r es :
  CreateZeroInstance d = Some f ->
  forall s acc fuel,
    drains w f r (trace s) es ->
    length es < fuel ->
    CreateFromRows_loop w fuel d r acc s
    = (Ret (acc ++ es, None), add_calls s (drain_calls w f r (trace s) es)).
Proof.
  intros Hf. induction es as [|e es IH]; intros s acc fuel Hd Hfuel.
  - destruct fuel as [|fuel]; [inversion Hfuel|].
    destruct Hd as (e & Hz & Hs). simpl.
    unfold bind. rewrite (call_CreateZeroInstance_eq _ _ _ Hf), Hz.
    rewrite call_ScanFromRow_eq. simpl. rewrite Hs. simpl.
    rewrite app_nil_r. unfold ret. f_equal.
    unfold add_calls, set_trace. simpl. rewrite <- app_assoc. reflexivity.
  - destruct fuel as [|fuel]; [inversion Hfuel|].
    destruct Hd as (Hz & (err & Hs) & Hd). simpl.
    unfold bind. rewrite (call_CreateZeroInstance_eq _ _ _ Hf), Hz.
    rewrite call_ScanFromRow_eq. simpl. rewrite Hs. simpl.
    rewrite IH.
    + simpl. rewrite <- !app_assoc. simpl. f_equal.
      unfold add_calls, set_trace. simpl. rewrite <- !app_assoc. reflexivity.
    + simpl. rewrite <- app_assoc. exact Hd.
    + simpl in Hfuel. lia.
Qed.

Lemma load_context_live c ctx s :
  contexts s !! c = Some ctx ->
  load_context (Some c) s = (Ret (c, ctx), s).
Proof. intros H. unfold load_context, bind, deref, gets, ret. simpl. rewrite H. reflexivity. Qed.

Lemma Tx_Query_eq t query args s :
  sql.Tx_Query w (Some t) query args s
  = (Ret (go_pair (tx_query_resp w (trace s) t query args)),
     add_calls s [TxQuery t query args]).
Proof. reflexivity. Qed.

Lemma DB_Query_eq dbh query args s :
  sql.DB_Query w (Some dbh) query args s
  = (Ret (go_pair (db_query_resp w (trace s) dbh query args)),
     add_calls s [DBQuery dbh query args]).
Proof. reflexivity. Qed.

Lemma sprintf_find table column :
  sprintf "SELECT * FROM %s WHERE %s=?" [table; column] = find_sql table column.
Proof. reflexivity. Qed.

Lemma sprintf_stamp table :
  sprintf "UPDATE %s SET createdDate=? WHERE id=?" [table] = stamp_sql table.
Proof. reflexivity. Qed.

Lemma sprintf_reselect table :
  sprintf "SELECT * FROM %s WHERE id=?" [table] = reselect_sql table.
Proof. reflexivity. Qed.

Lemma sprintf_related target_table join_table foreign_key target_key query_key :
  sprintf "SELECT %s.* FROM %s LEFT OUTER JOIN %s ON %s.%s=%s.%s WHERE %s.%s=?"
    [target_table; join_table; target_table; join_table; foreign_key;
     target_table; target_key; join_table; query_key]
  = related_find_sql target_table join_table foreign_key target_key query_key.
Proof. reflexivity. Qed.

Lemma find_query_yields d transaction s query v r q :
  query_yields w d transaction s query v r q ->
  find_query w d transaction query v s = (Ret (Some r, None), add_calls s [q]).
Proof.
  unfold query_yields, find_query. destruct transaction as [t|].
  - intros [H ->]. rewrite Tx_Query_eq, H. reflexivity.
  - intros (c & ctx & dbh & Hc & Hl & Hd & H & ->).
    unfold bind. rewrite Hc, (load_context_live _ _ _ Hl), Hd, DB_Query_eq, H.
    reflexivity.
Qed.

Lemma FindEntities_unfold fuel d transaction keyName v :
  FindEntities w fuel d transaction keyName v
  = (let* (rows, err) :=
       find_query w d transaction (find_sql (TableName d) (find_column d keyName)) v in
     let* (entities, err) :=
       match err with
       | Some _ => ret ([], err)
       | None => CreateFromRows w fuel d rows
       end in
     with_deferred [sql.Rows_Close w rows] (ret (entities, err))).
Proof. reflexivity. Qed.

Lemma FindEntities_drains fuel d transaction keyName v s f r q es :
  CreateZeroInstance d = Some f ->
  query_yields w d transaction s (find_sql (TableName d) (find_column d keyName)) v r q ->
  drains w f (Some r) (trace s ++ [q]) es ->
  length es < fuel ->
  FindEntities w fuel d transaction keyName v s
  = (Ret (es, None),
     add_calls s (q :: drain_calls w f (Some r) (trace s ++ [q]) es ++ [RowsClose r])).
Proof.
  intros Hf Hq Hd Hfuel. rewrite FindEntities_unfold. unfold bind at 1.
  rewrite (find_query_yields _ _ _ _ _ _ _ Hq). unfold bind at 1.
  unfold CreateFromRows.
  rewrite (CreateFromRows_loop_drains d f (Some r) es Hf (add_calls s [q]) [] fuel Hd Hfuel).
  simpl. unfold with_deferred, ret, bind. simpl. f_equal.
  unfold add_calls, set_trace. simpl. rewrite <- !app_assoc. reflexivity.
Qed.

(** *** Create *)

Lemma Create_steps_calls d t commitAtEnd args s o s' :
  Create_steps w d (Some t) commitAtEnd args s = (o, s') ->
  exists mid,
    s' = add_calls s mid /\
    Forall (fun c => is_step c = true) mid /\
    match o with
    | Ret v => cv_transaction v = Some t /\ cv_commitAtEnd v = commitAtEnd
    | Panic _ => True
    | OutOfFuel => False
    end.
Proof.
  unfold Create_steps, call_CreateZeroInstance, call_ScanFromRow,
    sql.Tx_Stmt, sql.Stmt_Exec, sql.Result_LastInsertId, sql.Now_Unix,
    sql.Tx_Exec, sql.Tx_Query, bind, ret, throw, deref, ask, go_pair.
  intros H. simpl in H.
  repeat match type of H with
         | context [match ?x with _ => _ end] =>
             lazymatch x with
             | context [match _ with _ => _ end] => fail
             | _ => destruct x eqn:?; simpl in H
             end
         end;
    injection H as <- <-; eexists;
    (split; [first [ exact (eq_sym (add_calls_nil _))
                   | unfold add_calls, set_trace; simpl; rewrite <- ?app_assoc;
                     simpl; reflexivity ]
            | split; [repeat first [apply Forall_nil_2 | apply Forall_cons_2; [reflexivity|]]
                     | simpl; auto]]).
Qed.

Lemma Create_cleanup_owned v t s :
  cv_transaction v = Some t ->
  Create_cleanup w v s
  = (Ret (cv_entity v, cv_err v),
     add_calls s ((if cv_commitAtEnd v
                   then [end_of_transaction t (cv_err v)]
                   else []) ++ releases v)).
Proof.
  destruct v as [tr c ins r e err]. simpl. intros ->.
  unfold Create_cleanup, releases, with_deferred, end_of_transaction,
    sql.Tx_Commit, sql.Tx_Rollback, sql.Rows_Close, sql.Stmt_Close,
    bind, ret, throw, deref, ask.
  destruct c, err, ins, r; simpl;
    (f_equal; first [ exact (eq_sym (add_calls_nil _))
                    | unfold add_calls, set_trace; simpl; rewrite <- ?app_assoc;
                      reflexivity ]).
Qed.

Lemma Create_supplied d t args s :
  Create w d (Some t) args s
  = (let* v := Create_steps w d (Some t) false args in Create_cleanup w v) s.
Proof. reflexivity. Qed.

Lemma Create_implicit d args s c ctx dbh t :
  Context d = Some c ->
  contexts s !! c = Some ctx ->
  Database ctx = Some dbh ->
  begin_resp w (trace s) dbh = inl t ->
  Create w d None args s
  = (let* v := Create_steps w d (Some t) true args in Create_cleanup w v)
      (add_calls s [DBBegin dbh]).
Proof.
  intros Hc Hl Hd Hb. unfold Create, Create_body, bind at 1 2 3.
  rewrite Hc, (load_context_live _ _ _ Hl), Hd.
  unfold sql.DB_Begin, bind, deref, ret, ask. simpl. rewrite Hb. reflexivity.
Qed.

(** [Create] in the transaction [t], from the state [s]: either the
    statement sequence panics, or it reaches [cleanup] and returns. *)
Lemma Create_in_transaction d t commitAtEnd args s o s' :
  (let* v := Create_steps w d (Some t) commitAtEnd args in Create_cleanup w v) s
  = (o, s') ->
  exists mid,
    Forall (fun c => is_step c = true) mid /\
    match o with
    | Ret (e, err) =>
        exists closes,
          Forall (fun c => is_close c = true) closes /\
          s' = add_calls s (mid ++ (if commitAtEnd
                                    then [end_of_transaction t err]
                                    else []) ++ closes)
    | Panic _ => s' = add_calls s mid
    | OutOfFuel => False
    end.
Proof.
  unfold bind. destruct (Create_steps w d (Some t) commitAtEnd args s) as [o1 s1] eqn:E.
  destruct (Create_steps_calls _ _ _ _ _ _ _ E) as (mid & -> & Hmid & Ho).
  destruct o1 as [v|p|]; [|intros [= <- <-]; exists mid; auto|contradiction].
  destruct Ho as [Ht Hc]. rewrite (Create_cleanup_owned _ _ _ Ht), Hc.
  intros [= <- <-]. exists mid. split; [exact Hmid|].
  exists (releases v). split.
  - unfold releases. destruct (cv_insertStatement v), (cv_rows v); simpl;
      repeat first [apply Forall_nil_2 | apply Forall_cons_2; [reflexivity|]].
  - rewrite add_calls_app. reflexivity.
Qed.

Lemma Create_steps_returns d t commitAtEnd args s st f :
  InsertStatement d = Some st ->
  CreateZeroInstance d = Some f ->
  (forall tr, zero_instance_resp w tr f <> None) ->
  (forall tr e r p, scan_resp w tr e r <> ScanPanic p) ->
  exists v s', Create_steps w d (Some t) commitAtEnd args s = (Ret v, s').
Proof.
  intros Hst Hf Hz Hs.
  unfold Create_steps, call_CreateZeroInstance, call_ScanFromRow,
    sql.Tx_Stmt, sql.Stmt_Exec, sql.Result_LastInsertId, sql.Now_Unix,
    sql.Tx_Exec, sql.Tx_Query, bind, ret, throw, deref, ask, go_pair.
  rewrite Hst, Hf. simpl.
  repeat match goal with
         | |- context [match ?x with _ => _ end] =>
             lazymatch x with
             | context [match _ with _ => _ end] => fail
             | _ => destruct x eqn:?; simpl
             end
         end;
    try (eexists _, _; reflexivity).
  - exfalso. eapply Hs. eassumption.
  - exfalso. eapply Hz. eassumption.
Qed.

End EngineFacts.

Lemma is_step_not_tx_control c : is_step c = true -> is_tx_control c = false.
Proof. destruct c; cbv; congruence. Qed.

Lemma is_close_not_tx_control c : is_close c = true -> is_tx_control c = false.
Proof. destruct c; cbv; congruence. Qed.

(** The statement sequence of [Create], with the errors the world answered
    to it: none when it ends without error, else the one error it ends
    with. *)
Lemma Create_steps_answered w d t commitAtEnd args s v s1 :
  Create_steps w d (Some t) commitAtEnd args s = (Ret v, s1) ->
  exists mid,
    s1 = add_calls s mid /\
    Forall (fun c => is_step c = true) mid /\
    cv_transaction v = Some t /\
    cv_commitAtEnd v = commitAtEnd /\
    answered_errors w (trace s) mid = option_list (cv_err v).
Proof.
  unfold Create_steps, call_CreateZeroInstance, call_ScanFromRow,
    sql.Tx_Stmt, sql.Stmt_Exec, sql.Result_LastInsertId, sql.Now_Unix,
    sql.Tx_Exec, sql.Tx_Query, bind, ret, throw, deref, ask, go_pair.
  intros H. simpl in H.
  repeat match type of H with
         | context [match ?x with _ => _ end] =>
             lazymatch x with
             | context [match _ with _ => _ end] => fail
             | _ => destruct x eqn:?; simpl in H
             end
         end;
    try discriminate H;
    injection H as <- <-; eexists;
    (split; [unfold add_calls, set_trace; simpl; rewrite <- ?app_assoc; simpl;
             reflexivity|]);
    (split; [repeat first [apply Forall_nil_2 | apply Forall_cons_2; [reflexivity|]]|]);
    (split; [reflexivity|]); (split; [reflexivity|]);
    simpl; rewrite <- ?app_assoc; simpl;
    repeat match goal with
           | E : _ = _ |- _ => progress (rewrite <- ?app_assoc in E; simpl in E)
           end;
    repeat match goal with
           | E : ?x = _ |- context [?x] => rewrite E; simpl
           end;
    rewrite ?app_nil_r; reflexivity.
Qed.

(** C1. With a transaction from the caller, [Create] makes no begin, commit
    or rollback call, whatever its outcome.  Without one, it begins a
    transaction on the context's connection; when it returns, the calls of
    its statement sequence are followed by the end of that transaction and
    then only by releases: the end is a commit when the world answered no
    error to any call of the sequence, and a rollback when it answered one,
    which is then the error [Create] returns.  It does return unless
    application code is nil or panics. *)
Theorem Create_transaction_ownership (w : World) (d : EntityDescription)
    (args : list value) (s : State) :
  (forall t,
      Forall (fun c => is_tx_control c = false)
        (new_calls s (snd (Create w d (Some t) args s)))) /\
  (forall c ctx dbh t0,
      Context d = Some c ->
      contexts s !! c = Some ctx ->
      Database ctx = Some dbh ->
      begin_resp w (trace s) dbh = inl t0 ->
      (forall e err s',
          Create w d None args s = (Ret (e, err), s') ->
          exists mid closes,
            new_calls s s' = DBBegin dbh :: mid ++ end_of_transaction t0 err :: closes /\
            Forall (fun c => is_step c = true) mid /\
            Forall (fun c => is_close c = true) closes /\
            answered_errors w (trace s ++ [DBBegin dbh]) mid = option_list err /\
            (answered_errors w (trace s ++ [DBBegin dbh]) mid = [] ->
             end_of_transaction t0 err = TxCommit t0) /\
            (answered_errors w (trace s ++ [DBBegin dbh]) mid <> [] ->
             end_of_transaction t0 err = TxRollback t0)) /\
      (forall st f,
          InsertStatement d = Some st ->
          CreateZeroInstance d = Some f ->
          (forall tr, zero_instance_resp w tr f <> None) ->
          (forall tr e r p, scan_resp w tr e r <> ScanPanic p) ->
          exists e err s', Create w d None args s = (Ret (e, err), s'))).
Proof.
  split.
  - intros t. rewrite Create_supplied.
    destruct ((let* v := Create_steps w d (Some t) false args in Create_cleanup w v) s)
      as [o s'] eqn:E.
    destruct (Create_in_transaction _ _ _ _ _ _ _ _ E) as (mid & Hmid & Ho).
    assert (Hmid' : Forall (fun c => is_tx_control c = false) mid).
    { eapply Forall_impl; [exact Hmid|]. intros x. apply is_step_not_tx_control. }
    simpl. destruct o as [[e err]|p|]; [|subst s'|contradiction].
    + destruct Ho as (closes & Hcl & ->). rewrite new_calls_add_calls. simpl.
      apply Forall_app. split; [exact Hmid'|].
      eapply Forall_impl; [exact Hcl|]. intros x. apply is_close_not_tx_control.
    + rewrite new_calls_add_calls. exact Hmid'.
  - intros c ctx dbh t0 Hc Hl Hd Hb. split.
    + intros e err s' H.
      rewrite (Create_implicit w d args s c ctx dbh t0 Hc Hl Hd Hb) in H.
      unfold bind in H.
      destruct (Create_steps w d (Some t0) true args (add_calls s [DBBegin dbh]))
        as [[v|p|] s1] eqn:E; [|discriminate H|discriminate H].
      destruct (Create_steps_answered _ _ _ _ _ _ _ _ E)
        as (mid & -> & Hmid & Ht & Hcm & Herr).
      rewrite (Create_cleanup_owned _ _ _ _ Ht), Hcm in H. injection H as <- <- <-.
      exists mid, (releases v). split; [|split; [exact Hmid|split; [|split; [exact Herr|]]]].
      * rewrite !add_calls_app, new_calls_add_calls. reflexivity.
      * unfold releases. destruct (cv_insertStatement v), (cv_rows v); simpl;
          repeat first [apply Forall_nil_2 | apply Forall_cons_2; [reflexivity|]].
      * simpl trace in Herr. rewrite Herr.
        destruct (cv_err v); simpl; split; intros H; congruence.
    + intros st f Hst Hf Hz Hs.
      rewrite (Create_implicit w d args s c ctx dbh t0 Hc Hl Hd Hb).
      destruct (Create_steps_returns w d t0 true args (add_calls s [DBBegin dbh])
                  st f Hst Hf Hz Hs) as (v & s1 & E).
      destruct (Create_steps_calls _ _ _ _ _ _ _ _ E) as (_ & _ & _ & Ht & _).
      unfold bind. rewrite E, (Create_cleanup_owned _ _ _ _ Ht). eauto.
Qed.

Lemma Create_transaction_ownership_witness :
  Context Sample.lists_registered = Some 1 /\
  contexts Sample.state !! 1 = Some Sample.context /\
  Database Sample.context = Some 0 /\
  begin_resp (Faulty.world false true true 1 None) (trace Sample.state) 0 = inl 7 /\
  Create (Faulty.world false true true 1 None) Sample.lists_registered None
    [VString "groceries"] Sample.state
  = (Ret (None, Some "disk full"),
     add_calls Sample.state
       [DBBegin 0; TxStmt 7 1; StmtExec 101 [VString "groceries"];
        TxRollback 7; StmtClose 101]) /\
  exists mid closes,
    new_calls Sample.state
      (add_calls Sample.state
         [DBBegin 0; TxStmt 7 1; StmtExec 101 [VString "groceries"];
          TxRollback 7; StmtClose 101])
    = DBBegin 0 :: mid ++ end_of_transaction 7 (Some "disk full") :: closes /\
    Forall (fun c => is_step c = true) mid /\
    Forall (fun c => is_close c = true) closes /\
    answered_errors (Faulty.world false true true 1 None)
      (trace Sample.state ++ [DBBegin 0]) mid = option_list (Some "disk full") /\
    (answered_errors (Faulty.world false true true 1 None)
       (trace Sample.state ++ [DBBegin 0]) mid = [] ->
     end_of_transaction 7 (Some "disk full") = TxCommit 7) /\
    (answered_errors (Faulty.world false true true 1 None)
       (trace Sample.state ++ [DBBegin 0]) mid <> [] ->
     end_of_transaction 7 (Some "disk full") = TxRollback 7).
Proof.
  assert (H : Create (Faulty.world false true true 1 None) Sample.lists_registered None
                [VString "groceries"] Sample.state
              = (Ret (None, Some "disk full"),
                 add_calls Sample.state
                   [DBBegin 0; TxStmt 7 1; StmtExec 101 [VString "groceries"];
                    TxRollback 7; StmtClose 101])) by (vm_compute; reflexivity).
  split; [reflexivity|]. split; [reflexivity|]. split; [reflexivity|].
  split; [reflexivity|]. split; [exact H|].
  exact (proj1 (proj2 (Create_transaction_ownership (Faulty.world false true true 1 None)
                         Sample.lists_registered [VString "groceries"] Sample.state)
                  1 Sample.context 0 7 eq_refl eq_refl eq_refl eq_refl)
           None (Some "disk full") _ H).
Defined.

(** ** The statements of [Create] *)

Lemma append_cons a x z : String a x +:+ z = String a (x +:+ z).
Proof. reflexivity. Qed.

Lemma append_length x z : String.length (x +:+ z) = String.length x + String.length z.
Proof.
  induction x as [|a x IH]; [reflexivity|].
  rewrite append_cons. simpl. rewrite IH. reflexivity.
Qed.

Lemma append_inv_head x y z : x +:+ y = x +:+ z -> y = z.
Proof.
  induction x as [|a x IH]; [exact id|].
  rewrite !append_cons. intros [= H]. exact (IH H).
Qed.

Lemma append_inv_tail z x y : x +:+ z = y +:+ z -> x = y.
Proof.
  revert y. induction x as [|a x IH]; intros [|b y] H.
  - reflexivity.
  - apply (f_equal String.length) in H. rewrite !append_length in H. simpl in H. lia.
  - apply (f_equal String.length) in H. rewrite !append_length in H. simpl in H. lia.
  - rewrite !append_cons in H. injection H as -> H. f_equal. exact (IH _ H).
Qed.

Lemma stamp_by_primary_key_iff d :
  stamp_sql (TableName d) = stamp_by_primary_key d <-> PrimaryKey d = "id".
Proof.
  unfold stamp_sql, stamp_by_primary_key. split.
  - intros H. apply append_inv_head, append_inv_head in H.
    change (" SET createdDate=? WHERE id=?")
      with (" SET createdDate=? WHERE " +:+ "id" +:+ "=?") in H.
    apply append_inv_head in H. symmetry. exact (append_inv_tail _ _ _ H).
  - intros ->. reflexivity.
Qed.

Lemma reselect_by_primary_key_iff d :
  reselect_sql (TableName d) = reselect_by_primary_key d <-> PrimaryKey d = "id".
Proof.
  unfold reselect_sql, reselect_by_primary_key, find_sql. split.
  - intros H. apply append_inv_head, append_inv_head in H.
    change (" WHERE id=?") with (" WHERE " +:+ "id" +:+ "=?") in H.
    apply append_inv_head in H. symmetry. exact (append_inv_tail _ _ _ H).
  - intros ->. reflexivity.
Qed.

Lemma Create_steps_prefix w d t commitAtEnd args s st st' rs objectID createdTime o s1 :
  InsertStatement d = Some st ->
  insert_succeeds w t st args (trace s) st' rs objectID createdTime ->
  Create_steps w d (Some t) commitAtEnd args s = (o, s1) ->
  exists rest,
    s1 = add_calls s (insert_calls t st st' args rs ++
                      stamp_call t (TableName d) createdTime objectID :: rest) /\
    (forall rs',
        tx_exec_resp w (trace s ++ insert_calls t st st' args rs) t
          (stamp_sql (TableName d)) [VInt64 createdTime; VInt64 objectID] = inl rs' ->
        exists rest', rest = reselect_call t (TableName d) objectID :: rest').
Proof.
  intros Hst (H1 & H2 & H3 & H4).
  unfold Create_steps, call_CreateZeroInstance, call_ScanFromRow,
    sql.Tx_Stmt, sql.Stmt_Exec, sql.Result_LastInsertId, sql.Now_Unix,
    sql.Tx_Exec, sql.Tx_Query, bind, ret, throw, deref, ask, go_pair.
  rewrite Hst, sprintf_stamp, sprintf_reselect. simpl.
  rewrite H1, H2. simpl. rewrite <- !app_assoc. simpl. rewrite H3. simpl.
  rewrite <- !app_assoc. simpl. rewrite H4.
  unfold insert_calls, stamp_call, reselect_call.
  intros H.
  repeat match type of H with
         | context [match ?x with _ => _ end] =>
             lazymatch x with
             | context [match _ with _ => _ end] => fail
             | _ => destruct x eqn:?; simpl in H
             end
         end;
    injection H as <- <-; eexists;
    (split; [unfold add_calls, set_trace; simpl; rewrite <- ?app_assoc; simpl;
             reflexivity
            | intros rs' Hrs'; try congruence; eexists; reflexivity]).
Qed.

Lemma Create_active w d transaction args s t pre :
  active_transaction w d transaction s t pre ->
  Create w d transaction args s
  = (let* v := Create_steps w d (Some t)
                 (match transaction with None => true | Some _ => false end) args in
     Create_cleanup w v) (add_calls s pre).
Proof.
  destruct transaction as [t'|]; simpl.
  - intros [-> ->]. rewrite add_calls_nil. apply Create_supplied.
  - intros (c & ctx & dbh & Hc & Hl & Hd & Hb & ->).
    exact (Create_implicit w d args s c ctx dbh t Hc Hl Hd Hb).
Qed.

(** C7, amended. Once the insert has yielded the generated key, [Create]
    sends [UPDATE <table> SET createdDate=? WHERE id=?] with the time and
    that key, and, when this succeeds, [SELECT * FROM <table> WHERE id=?]
    with the same key, both on the active transaction.  The column of both
    statements is the fixed name [id]: they designate the row by the
    description's primary-key column exactly when that column is named
    [id]. *)
Theorem Create_statements_key_on_id (w : World) (d : EntityDescription)
    (transaction : option tx) (args : list value) (s : State) (t : tx)
    (pre : list call) (st st' : stmt) (rs : result) (objectID createdTime : Z) :
  active_transaction w d transaction s t pre ->
  InsertStatement d = Some st ->
  insert_succeeds w t st args (trace s ++ pre) st' rs objectID createdTime ->
  (exists rest,
      new_calls s (snd (Create w d transaction args s))
      = pre ++ insert_calls t st st' args rs ++
        stamp_call t (TableName d) createdTime objectID :: rest /\
      (forall rs',
          tx_exec_resp w ((trace s ++ pre) ++ insert_calls t st st' args rs) t
            (stamp_sql (TableName d)) [VInt64 createdTime; VInt64 objectID] = inl rs' ->
          exists rest', rest = reselect_call t (TableName d) objectID :: rest')) /\
  (stamp_sql (TableName d) = stamp_by_primary_key d <-> PrimaryKey d = "id") /\
  (reselect_sql (TableName d) = reselect_by_primary_key d <-> PrimaryKey d = "id").
Proof.
  intros Ha Hst Hi. split; [|split].
  - rewrite (Create_active _ _ _ _ _ _ _ Ha). unfold bind.
    destruct (Create_steps w d (Some t) _ args (add_calls s pre)) as [o1 s1] eqn:E.
    destruct (Create_steps_prefix w d t _ args (add_calls s pre) st st' rs
                objectID createdTime o1 s1 Hst Hi E) as (rest & -> & Hre).
    destruct (Create_steps_calls _ _ _ _ _ _ _ _ E) as (_ & _ & _ & Ho).
    rewrite add_calls_app in *.
    destruct o1 as [v|p|]; [|simpl|contradiction].
    + destruct Ho as [Ht _]. rewrite (Create_cleanup_owned _ _ _ _ Ht). simpl.
      rewrite add_calls_app, new_calls_add_calls.
      eexists. split.
      * rewrite <- !app_assoc. simpl. reflexivity.
      * intros rs' H. destruct (Hre rs' H) as (rest' & ->). eexists. reflexivity.
    + rewrite new_calls_add_calls. exists rest. split; [reflexivity|exact Hre].
  - apply stamp_by_primary_key_iff.
  - apply reselect_by_primary_key_iff.
Qed.

Lemma Create_statements_key_on_id_witness :
  active_transaction (Sample.world 1) Sample.users (Some 9) Sample.state 9 [] /\
  InsertStatement Sample.users = Some 3 /\
  insert_succeeds (Sample.world 1) 9 3 [VString "ann"] (trace Sample.state ++ [])
    103 3 42 1700000000 /\
  exists rest,
    new_calls Sample.state
      (snd (Create (Sample.world 1) Sample.users (Some 9) [VString "ann"] Sample.state))
    = [] ++ insert_calls 9 3 103 [VString "ann"] 3 ++
      stamp_call 9 "users" 1700000000 42 :: rest /\
    (forall rs',
        tx_exec_resp (Sample.world 1)
          ((trace Sample.state ++ []) ++ insert_calls 9 3 103 [VString "ann"] 3) 9
          (stamp_sql "users") [VInt64 1700000000; VInt64 42] = inl rs' ->
        exists rest', rest = reselect_call 9 "users" 42 :: rest').
Proof.
  assert (H1 : active_transaction (Sample.world 1) Sample.users (Some 9) Sample.state 9 [])
    by (split; reflexivity).
  assert (H2 : insert_succeeds (Sample.world 1) 9 3 [VString "ann"]
                 (trace Sample.state ++ []) 103 3 42 1700000000)
    by (repeat split; reflexivity).
  split; [exact H1|]. split; [reflexivity|]. split; [exact H2|].
  exact (proj1 (Create_statements_key_on_id (Sample.world 1) Sample.users (Some 9)
                  [VString "ann"] Sample.state 9 [] 3 103 3 42 1700000000
                  H1 eq_refl H2)).
Defined.

(** The claim of C7 fails for a description whose primary-key column is not
    named [id]: the statements still filter on [id]. *)
Lemma Create_ignores_primary_key_column :
  PrimaryKey Sample.users = "userID" /\
  statements_of
    (new_calls Sample.state
       (snd (Create (Sample.world 1) Sample.users (Some 9) [VString "ann"] Sample.state)))
  = ["UPDATE users SET createdDate=? WHERE id=?"; "SELECT * FROM users WHERE id=?"] /\
  ~ Create_keys_on_primary_key (Sample.world 1) Sample.users (Some 9)
      [VString "ann"] Sample.state.
Proof.
  split; [reflexivity|]. split; [vm_compute; reflexivity|].
  unfold Create_keys_on_primary_key. vm_compute. discriminate.
Qed.

(** C8. When every statement succeeds and the scanner reports no row with a
    nil error, [Create] on its own transaction commits, and returns the
    blank entity with a nil error. *)
Theorem Create_commits_when_no_row_is_scanned :
  scan_resp (Sample.world 0)
    [DBBegin 0; TxStmt 7 1; StmtExec 101 [VString "groceries"];
     ResultLastInsertId 3; TimeNowUnix;
     stamp_call 7 "lists" 1700000000 42; reselect_call 7 "lists" 42;
     ZeroInstance 1] 0 (Some 5)
  = ScanOk false None /\
  Create (Sample.world 0) Sample.lists_registered None [VString "groceries"] Sample.state
  = (Ret (Some 0, None),
     add_calls Sample.state
       [DBBegin 0; TxStmt 7 1; StmtExec 101 [VString "groceries"];
        ResultLastInsertId 3; TimeNowUnix;
        stamp_call 7 "lists" 1700000000 42; reselect_call 7 "lists" 42;
        ZeroInstance 1; ScanFromRow 0 (Some 5);
        TxCommit 7; StmtClose 101; RowsClose 5]).
Proof. split; vm_compute; reflexivity. Qed.

(** C5. Errors of datastore calls that do not reach the caller: the error of
    the query of [FindRelatedEntity] is overwritten by the result of the
    scan loop; after a failed query [FindEntities] panics in its deferred
    close of the nil cursor; after a failed begin [Create] panics in the
    rollback of the nil transaction. *)
Theorem datastore_errors_not_returned :
  tx_query_resp Sample.world_down [] 9
    (related_find_sql "placemarks" "lists_placemarks" "placemarksID" "id" "listsID")
    [VInt64 1]
  = inr "connection refused" /\
  fst (FindRelatedEntity Sample.world_down 3 Sample.lists_linked (Some 9)
         "Placemark" "listsID" (VInt64 1) Sample.state_registered)
  = Ret ([], None) /\
  fst (FindEntities Sample.world_down 3 Sample.lists_registered (Some 9) None
         (VInt64 1) Sample.state)
  = Panic NilDereference /\
  fst (Create Sample.world_down Sample.lists_registered None [VString "groceries"]
         Sample.state)
  = Panic NilDereference.
Proof. repeat split; vm_compute; reflexivity. Qed.

(** ** The finds *)

Ltac solve_drains :=
  cbn [drains];
  repeat match goal with
         | |- _ /\ _ => split
         | |- exists _, _ => eexists
         | |- _ = _ => vm_compute; reflexivity
         end.

(** C3. A find whose query yields a cursor that delivers the entities [es]
    and then reports exhaustion (false, nil error) returns exactly [es], in
    arrival order, with a nil error, given more fuel than rows; for no row
    this is the empty sequence.  The cursor is closed last. *)
Theorem FindEntities_returns_every_row_in_order (w : World) (fuel : nat)
    (d : EntityDescription) (transaction : option tx) (keyName : option string)
    (v : value) (s : State) (f : factory) (r : rows) (q : call)
    (es : list Entity) :
  CreateZeroInstance d = Some f ->
  query_yields w d transaction s (find_sql (TableName d) (find_column d keyName)) v r q ->
  drains w f (Some r) (trace s ++ [q]) es ->
  length es < fuel ->
  FindEntities w fuel d transaction keyName v s
  = (Ret (es, None),
     add_calls s (q :: drain_calls w f (Some r) (trace s ++ [q]) es ++ [RowsClose r])) /\
  (es = [] ->
   fst (FindEntities w fuel d transaction keyName v s) = Ret ([], None)).
Proof.
  intros Hf Hq Hd Hfuel.
  rewrite (FindEntities_drains w fuel d transaction keyName v s f r q es Hf Hq Hd Hfuel).
  split; [reflexivity|]. intros ->. reflexivity.
Qed.

Lemma FindEntities_returns_every_row_in_order_witness :
  CreateZeroInstance Sample.lists_registered = Some 1 /\
  query_yields (Sample.world 3) Sample.lists_registered None Sample.state
    (find_sql "lists" "id") (VInt64 1) 6
    (DBQuery 0 "SELECT * FROM lists WHERE id=?" [VInt64 1]) /\
  drains (Sample.world 3) 1 (Some 6)
    (trace Sample.state ++ [DBQuery 0 "SELECT * FROM lists WHERE id=?" [VInt64 1]])
    [0; 1; 2] /\
  length [0; 1; 2] < 4 /\
  fst (FindEntities (Sample.world 3) 4 Sample.lists_registered None None (VInt64 1)
         Sample.state)
  = Ret ([0; 1; 2], None).
Proof.
  assert (H1 : query_yields (Sample.world 3) Sample.lists_registered None Sample.state
                 (find_sql "lists" "id") (VInt64 1) 6
                 (DBQuery 0 "SELECT * FROM lists WHERE id=?" [VInt64 1])).
  { exists 1, Sample.context, 0. repeat split; reflexivity. }
  assert (H2 : drains (Sample.world 3) 1 (Some 6)
                 (trace Sample.state ++
                  [DBQuery 0 "SELECT * FROM lists WHERE id=?" [VInt64 1]])
                 [0; 1; 2]) by solve_drains.
  assert (H3 : length [0; 1; 2] < 4) by (simpl; lia).
  split; [reflexivity|]. split; [exact H1|]. split; [exact H2|]. split; [exact H3|].
  exact (f_equal fst
           (proj1 (FindEntities_returns_every_row_in_order (Sample.world 3) 4
                     Sample.lists_registered None None (VInt64 1) Sample.state
                     1 6 _ [0; 1; 2] eq_refl H1 H2 H3))).
Defined.



Lemma bind_ret_pair {A B} (m : M (A * B)) s :
  (let* (a, b) := m in ret (a, b)) s = m s.
Proof. unfold bind, ret. destruct (m s) as [[[a b]|p|] s']; reflexivity. Qed.

Lemma FindRelatedEntity_resolved w fuel d transaction targetEntityName queryKey
    queryValue s rel target :
  RelationshipForName d targetEntityName s = (Ret rel, s) ->
  EntityDescriptionForName (Context d) targetEntityName s = (Ret target, s) ->
  FindRelatedEntity w fuel d transaction targetEntityName queryKey queryValue s
  = (let* (rows, err) :=
       find_query w d transaction
         (related_find_sql (TableName target) (JoinTableName rel) (ForeignKey rel)
            (TargetKey rel) queryKey) queryValue in
     CreateFromRows w fuel target rows) s.
Proof.
  intros Hr Ht. unfold FindRelatedEntity. unfold bind at 1. rewrite Hr.
  unfold bind at 1. rewrite Ht. rewrite sprintf_related.
  unfold find_query.
  set (m := match transaction with
            | Some _ => _
            | None => _
            end).
  unfold bind at 1. unfold bind at 2.
  destruct (m s) as [[[r e]|p|] s1]; [|reflexivity|reflexivity].
  apply bind_ret_pair.
Qed.

(** Errors that are lost, in every world. *)

Lemma FindRelatedEntity_query_error_overwritten w fuel d t targetEntityName queryKey
    queryValue s rel target e :
  RelationshipForName d targetEntityName s = (Ret rel, s) ->
  EntityDescriptionForName (Context d) targetEntityName s = (Ret target, s) ->
  tx_query_resp w (trace s) t
    (related_find_sql (TableName target) (JoinTableName rel) (ForeignKey rel)
       (TargetKey rel) queryKey) [queryValue] = inr e ->
  FindRelatedEntity w fuel d (Some t) targetEntityName queryKey queryValue s
  = CreateFromRows w fuel target None
      (add_calls s [TxQuery t
                      (related_find_sql (TableName target) (JoinTableName rel)
                         (ForeignKey rel) (TargetKey rel) queryKey) [queryValue]]).
Proof.
  intros Hr Ht He.
  rewrite (FindRelatedEntity_resolved _ _ _ _ _ _ _ _ _ _ Hr Ht).
  unfold bind, find_query. rewrite Tx_Query_eq, He. reflexivity.
Qed.

Lemma FindEntities_query_error_panics w fuel d t keyName v s e :
  tx_query_resp w (trace s) t (find_sql (TableName d) (find_column d keyName)) [v]
  = inr e ->
  FindEntities w fuel d (Some t) keyName v s
  = (Panic NilDereference,
     add_calls s [TxQuery t (find_sql (TableName d) (find_column d keyName)) [v]]).
Proof.
  intros He. rewrite FindEntities_unfold. unfold bind, find_query.
  rewrite Tx_Query_eq, He. reflexivity.
Qed.

Lemma Create_begin_error_panics w d args s c ctx dbh e :
  Context d = Some c ->
  contexts s !! c = Some ctx ->
  Database ctx = Some dbh ->
  begin_resp w (trace s) dbh = inr e ->
  Create w d None args s = (Panic NilDereference, add_calls s [DBBegin dbh]).
Proof.
  intros Hc Hl Hd Hb. unfold Create, Create_body, bind at 1 2 3.
  rewrite Hc, (load_context_live _ _ _ Hl), Hd.
  unfold sql.DB_Begin, bind, deref, ret, ask. simpl. rewrite Hb. reflexivity.
Qed.

(** C6. [FindRelatedEntity] resolves the relationship by the target name on
    the source description and the target description by the same name in
    the source's context; the one statement it sends is the left outer join
    built from the resolved names, on the supplied transaction or else on
    the context's connection; every row of the cursor is materialized by the
    target description's factory and scanner, in order. *)
Theorem FindRelatedEntity_joins_through_the_relationship (w : World) (fuel : nat)
    (d : EntityDescription) (transaction : option tx)
    (targetEntityName queryKey : string) (queryValue : value) (s : State)
    (c : loc) (rel : EntityRelationship) (target : EntityDescription)
    (f : factory) (r : rows) (q : call) (es : list Entity) :
  Context d = Some c ->
  RelationshipForName d targetEntityName s = (Ret rel, s) ->
  EntityDescriptionForName (Some c) targetEntityName s = (Ret target, s) ->
  CreateZeroInstance target = Some f ->
  query_yields w d transaction s
    (related_find_sql (TableName target) (JoinTableName rel) (ForeignKey rel)
       (TargetKey rel) queryKey) queryValue r q ->
  drains w f (Some r) (trace s ++ [q]) es ->
  length es < fuel ->
  FindRelatedEntity w fuel d transaction targetEntityName queryKey queryValue s
  = (Ret (es, None),
     add_calls s (q :: drain_calls w f (Some r) (trace s ++ [q]) es)) /\
  (forall fuel',
      FindRelatedEntity w fuel' d transaction targetEntityName queryKey queryValue s
      = (let* (rows, err) :=
           find_query w d transaction
             (related_find_sql (TableName target) (JoinTableName rel)
                (ForeignKey rel) (TargetKey rel) queryKey) queryValue in
         CreateFromRows w fuel' target rows) s).
Proof.
  intros Hc Hr Ht Hf Hq Hd Hfuel. rewrite <- Hc in Ht. split.
  - rewrite (FindRelatedEntity_resolved _ _ _ _ _ _ _ _ _ _ Hr Ht).
    unfold bind. rewrite (find_query_yields _ _ _ _ _ _ _ _ Hq).
    unfold CreateFromRows.
    rewrite (CreateFromRows_loop_drains w target f (Some r) es Hf
               (add_calls s [q]) [] fuel Hd Hfuel).
    rewrite add_calls_app. reflexivity.
  - intros fuel'. exact (FindRelatedEntity_resolved _ _ _ _ _ _ _ _ _ _ Hr Ht).
Qed.

Lemma FindRelatedEntity_joins_through_the_relationship_witness :
  Context Sample.lists_linked = Some 1 /\
  RelationshipForName Sample.lists_linked "Placemark" Sample.state_registered
  = (Ret Sample.lists_placemarks, Sample.state_registered) /\
  EntityDescriptionForName (Some 1) "Placemark" Sample.state_registered
  = (Ret Sample.placemarks_registered, Sample.state_registered) /\
  CreateZeroInstance Sample.placemarks_registered = Some 2 /\
  fst (FindRelatedEntity (Sample.world 2) 3 Sample.lists_linked None "Placemark"
         "listsID" (VInt64 1) Sample.state_registered)
  = Ret ([0; 1], None) /\
  statements_of
    (trace (snd (FindRelatedEntity (Sample.world 2) 3 Sample.lists_linked None
                   "Placemark" "listsID" (VInt64 1) Sample.state_registered)))
  = ["SELECT placemarks.* FROM lists_placemarks LEFT OUTER JOIN placemarks ON lists_placemarks.placemarksID=placemarks.id WHERE lists_placemarks.listsID=?"].
Proof.
  pose (q := DBQuery 0
               (related_find_sql "placemarks" "lists_placemarks" "placemarksID" "id"
                  "listsID") [VInt64 1]).
  assert (H1 : RelationshipForName Sample.lists_linked "Placemark" Sample.state_registered
               = (Ret Sample.lists_placemarks, Sample.state_registered))
    by (vm_compute; reflexivity).
  assert (H2 : EntityDescriptionForName (Some 1) "Placemark" Sample.state_registered
               = (Ret Sample.placemarks_registered, Sample.state_registered))
    by (vm_compute; reflexivity).
  assert (H3 : query_yields (Sample.world 2) Sample.lists_linked None
                 Sample.state_registered
                 (related_find_sql (TableName Sample.placemarks_registered)
                    (JoinTableName Sample.lists_placemarks)
                    (ForeignKey Sample.lists_placemarks)
                    (TargetKey Sample.lists_placemarks) "listsID") (VInt64 1) 6 q).
  { exists 1, (mkDatabaseContext (Some 0) (Some 0)), 0. repeat split; reflexivity. }
  assert (H4 : drains (Sample.world 2) 2 (Some 6)
                 (trace Sample.state_registered ++ [q]) [0; 1]) by solve_drains.
  assert (H5 : length [0; 1] < 3) by (simpl; lia).
  pose proof (proj1 (FindRelatedEntity_joins_through_the_relationship (Sample.world 2) 3
                       Sample.lists_linked None "Placemark" "listsID" (VInt64 1)
                       Sample.state_registered 1 Sample.lists_placemarks
                       Sample.placemarks_registered 2 6 q [0; 1]
                       eq_refl H1 H2 eq_refl H3 H4 H5)) as H.
  split; [reflexivity|]. split; [exact H1|]. split; [exact H2|]. split; [reflexivity|].
  rewrite H. split; reflexivity.
Defined.

(** * Further properties of the registries *)

(** A registration, as a store update: the mapping [m] is the context's own,
    or a new one when the context had none. *)
Lemma RegisterEntityDescription_store c ctx d s :
  contexts s !! c = Some ctx ->
  exists m,
    RegisterEntityDescription (Some c) d s
    = (Ret tt,
       mkState (<[c := set_EntityDescriptions ctx (Some m)]> (contexts s))
               (<[m := <[Name d := set_Context d (Some c)]> (descmap_at s m)]>
                  (descmaps s))
               (relmaps s) (trace s)) /\
    match EntityDescriptions ctx with
    | Some m' => m = m'
    | None => descmaps s !! m = None
    end.
Proof.
  intros Hc. go_unfold. simpl. rewrite Hc. simpl.
  destruct ctx as [dbh [m|]]; simpl.
  - exists m. split; [|reflexivity]. unfold set_descmaps, set_EntityDescriptions. simpl.
    rewrite (insert_id (contexts s) c _ Hc). reflexivity.
  - exists (fresh (dom (descmaps s))).
    assert (Hf : descmaps s !! fresh (dom (descmaps s)) = None)
      by apply not_elem_of_dom, is_fresh.
    split; [|exact Hf].
    unfold set_descmaps, set_contexts, set_EntityDescriptions, descmap_at. simpl.
    rewrite lookup_insert_eq, Hf, insert_insert_eq. reflexivity.
Qed.

Lemma descmap_at_insert_eq cx dm rm tr m v :
  descmap_at (mkState cx (<[m := v]> dm) rm tr) m = v.
Proof. unfold descmap_at. simpl. rewrite lookup_insert_eq. reflexivity. Qed.

Lemma descmap_at_insert_ne cx dm rm tr m m' v :
  m <> m' ->
  descmap_at (mkState cx (<[m := v]> dm) rm tr) m'
  = default ∅ (dm !! m').
Proof. intros H. unfold descmap_at. simpl. rewrite lookup_insert_ne by exact H. reflexivity. Qed.

(** X1. Registering a description leaves what the context resolves for
    every other name as it was. *)
Theorem registration_keeps_other_names (c : loc) (ctx : DatabaseContext)
    (d : EntityDescription) (entityName : string) (s : State) :
  contexts s !! c = Some ctx ->
  entityName <> Name d ->
  exists s1,
    RegisterEntityDescription (Some c) d s = (Ret tt, s1) /\
    fst (EntityDescriptionForName (Some c) entityName s1)
    = fst (EntityDescriptionForName (Some c) entityName s).
Proof.
  intros Hc Hne.
  destruct (RegisterEntityDescription_store c ctx d s Hc) as (m & Hr & Hm).
  eexists. split; [exact Hr|].
  rewrite (EntityDescriptionForName_live c (set_EntityDescriptions ctx (Some m)))
    by (simpl; apply lookup_insert_eq).
  rewrite (EntityDescriptionForName_live c ctx _ s Hc). simpl.
  rewrite descmap_at_insert_eq, lookup_insert_ne by congruence.
  destruct (EntityDescriptions ctx) as [m'|].
  - subst m'. reflexivity.
  - unfold descmap_at. rewrite Hm. reflexivity.
Qed.

Lemma registration_keeps_other_names_witness :
  contexts Sample.state_registered !! 1 = Some (mkDatabaseContext (Some 0) (Some 0)) /\
  "Placemark" <> Name Sample.lists /\
  exists s1,
    RegisterEntityDescription (Some 1) Sample.lists Sample.state_registered = (Ret tt, s1) /\
    fst (EntityDescriptionForName (Some 1) "Placemark" s1)
    = fst (EntityDescriptionForName (Some 1) "Placemark" Sample.state_registered).
Proof.
  assert (H : "Placemark" <> Name Sample.lists) by (simpl; discriminate).
  split; [reflexivity|]. split; [exact H|].
  exact (registration_keeps_other_names 1 _ Sample.lists "Placemark"
           Sample.state_registered eq_refl H).
Defined.

(** X2. Registering a relationship leaves what the description resolves for
    every other target name as it was. *)
Theorem relationship_keeps_other_targets (d : EntityDescription)
    (r : EntityRelationship) (entityName : string) (s : State) :
  entityName <> EntityName r ->
  exists d' s1,
    RegisterRelationship d r s = (Ret d', s1) /\
    fst (RelationshipForName d' entityName s1) = fst (RelationshipForName d entityName s).
Proof.
  intros Hne.
  destruct (RegisterRelationship_eq d r s) as (m & s1 & Hr & Hm & _ & _ & _ & Hsh).
  eexists _, s1. split; [exact Hr|].
  rewrite !RelationshipForName_eq. simpl.
  rewrite Hm, lookup_insert_ne by congruence.
  destruct (Relationships d) as [m'|].
  - subst m'. reflexivity.
  - unfold relmap_at. rewrite Hsh. reflexivity.
Qed.

Lemma relationship_keeps_other_targets_witness :
  "Placemark" <> EntityName Sample.lists_users /\
  exists d' s1,
    RegisterRelationship Sample.lists_related Sample.lists_users Sample.state_related
    = (Ret d', s1) /\
    fst (RelationshipForName d' "Placemark" s1)
    = fst (RelationshipForName Sample.lists_related "Placemark" Sample.state_related).
Proof.
  assert (H : "Placemark" <> EntityName Sample.lists_users) by (simpl; discriminate).
  split; [exact H|].
  exact (relationship_keeps_other_targets Sample.lists_related Sample.lists_users
           "Placemark" Sample.state_related H).
Defined.

(** X3. If every description in a context's mapping refers back to that
    context, this still holds after a registration into the context. *)
Theorem registration_keeps_back_references (c : loc) (ctx : DatabaseContext)
    (d : EntityDescription) (s : State) :
  contexts s !! c = Some ctx ->
  back_references s c ->
  exists s1,
    RegisterEntityDescription (Some c) d s = (Ret tt, s1) /\
    back_references s1 c.
Proof.
  intros Hc Hinv.
  destruct (RegisterEntityDescription_store c ctx d s Hc) as (m & Hr & Hm).
  eexists. split; [exact Hr|].
  intros ctx1 m1 n d0 Hc1 Hm1 Hl. simpl in Hc1.
  rewrite lookup_insert_eq in Hc1. injection Hc1 as <-. simpl in Hm1.
  injection Hm1 as <-. rewrite descmap_at_insert_eq in Hl.
  destruct (decide (Name d = n)) as [<-|Hne].
  - rewrite lookup_insert_eq in Hl. injection Hl as <-. reflexivity.
  - rewrite lookup_insert_ne in Hl by exact Hne.
    destruct (EntityDescriptions ctx) as [m'|] eqn:E.
    + subst m'. exact (Hinv ctx m n d0 Hc E Hl).
    + unfold descmap_at in Hl. rewrite Hm in Hl. simpl in Hl.
      rewrite lookup_empty in Hl. discriminate.
Qed.

Lemma registration_keeps_back_references_witness :
  contexts Sample.state !! 1 = Some Sample.context /\
  back_references Sample.state 1 /\
  exists s1,
    RegisterEntityDescription (Some 1) Sample.lists Sample.state = (Ret tt, s1) /\
    back_references s1 1.
Proof.
  assert (H : back_references Sample.state 1).
  { intros ctx m n d0 Hc Hm _. injection Hc as <-. discriminate Hm. }
  split; [reflexivity|]. split; [exact H|].
  exact (registration_keeps_back_references 1 Sample.context Sample.lists
           Sample.state eq_refl H).
Defined.

(** X4. Registering the same description twice leaves the store as after
    the first registration. *)
Theorem registration_is_idempotent (c : loc) (ctx : DatabaseContext)
    (d : EntityDescription) (s : State) :
  contexts s !! c = Some ctx ->
  exists s1,
    RegisterEntityDescription (Some c) d s = (Ret tt, s1) /\
    RegisterEntityDescription (Some c) d s1 = (Ret tt, s1).
Proof.
  intros Hc.
  destruct (RegisterEntityDescription_store c ctx d s Hc) as (m & Hr & Hm).
  eexists. split; [exact Hr|].
  match goal with
  | |- RegisterEntityDescription _ _ ?s1 = _ =>
      destruct (RegisterEntityDescription_store c
                  (set_EntityDescriptions ctx (Some m)) d s1
                  ltac:(simpl; apply lookup_insert_eq)) as (m2 & Hr2 & Hm2)
  end.
  simpl in Hm2. subst m2. rewrite Hr2. f_equal.
  rewrite descmap_at_insert_eq. simpl.
  rewrite !insert_insert_eq. reflexivity.
Qed.

Lemma registration_is_idempotent_witness :
  contexts Sample.state !! 1 = Some Sample.context /\
  exists s1,
    RegisterEntityDescription (Some 1) Sample.lists Sample.state = (Ret tt, s1) /\
    RegisterEntityDescription (Some 1) Sample.lists s1 = (Ret tt, s1).
Proof.
  split; [reflexivity|].
  exact (registration_is_idempotent 1 Sample.context Sample.lists Sample.state eq_refl).
Defined.

(** X5. A relationship registered on a description before the description
    is registered in a context is resolved through the context. *)
Theorem relationship_then_registration_resolves (c : loc) (ctx : DatabaseContext)
    (d : EntityDescription) (r : EntityRelationship) (s : State) :
  contexts s !! c = Some ctx ->
  exists d1 s1 s2,
    RegisterRelationship d r s = (Ret d1, s1) /\
    RegisterEntityDescription (Some c) d1 s1 = (Ret tt, s2) /\
    lookup_relationship (Some c) (Name d) (EntityName r) s2 = (Ret r, s2).
Proof.
  intros Hc.
  destruct (RegisterRelationship_eq d r s) as (m & s1 & Hr & Hm & Hc1 & _).
  rewrite <- Hc1 in Hc.
  destruct (RegisterEntityDescription_live c ctx (set_Relationships d (Some m)) s1 Hc)
    as (m2 & s2 & Hr2 & Hc2 & Hm2 & Hrel & _).
  eexists _, s1, s2. split; [exact Hr|]. split; [exact Hr2|].
  rewrite (lookup_relationship_live _ _ _ _ s2 Hc2). simpl.
  rewrite Hm2. simpl. rewrite lookup_insert_eq. simpl.
  unfold relmap_at in *. rewrite Hrel, Hm, lookup_insert_eq. reflexivity.
Qed.

Lemma relationship_then_registration_resolves_witness :
  contexts Sample.state !! 1 = Some Sample.context /\
  exists d1 s1 s2,
    RegisterRelationship Sample.lists Sample.lists_placemarks Sample.state = (Ret d1, s1) /\
    RegisterEntityDescription (Some 1) d1 s1 = (Ret tt, s2) /\
    lookup_relationship (Some 1) "List" "Placemark" s2 = (Ret Sample.lists_placemarks, s2).
Proof.
  split; [reflexivity|].
  exact (relationship_then_registration_resolves 1 Sample.context Sample.lists
           Sample.lists_placemarks Sample.state eq_refl).
Defined.

(** X6. A registration into one context leaves what another context
    resolves as it was, unless the two contexts share their mapping. *)
Theorem registration_keeps_other_contexts (c1 c2 : loc) (ctx1 ctx2 : DatabaseContext)
    (d : EntityDescription) (entityName : string) (s : State) :
  c1 <> c2 ->
  contexts s !! c1 = Some ctx1 ->
  contexts s !! c2 = Some ctx2 ->
  (forall m1, EntityDescriptions ctx1 = Some m1 ->
              is_Some (descmaps s !! m1) /\ EntityDescriptions ctx2 <> Some m1) ->
  exists s1,
    RegisterEntityDescription (Some c2) d s = (Ret tt, s1) /\
    EntityDescriptionForName (Some c1) entityName s1
    = (fst (EntityDescriptionForName (Some c1) entityName s), s1).
Proof.
  intros Hne H1 H2 Hsep.
  destruct (RegisterEntityDescription_store c2 ctx2 d s H2) as (m & Hr & Hm).
  eexists. split; [exact Hr|].
  rewrite (EntityDescriptionForName_live c1 ctx1)
    by (simpl; rewrite lookup_insert_ne by congruence; exact H1).
  rewrite (EntityDescriptionForName_live c1 ctx1 _ s H1). simpl.
  destruct (EntityDescriptions ctx1) as [m1|]; [|reflexivity].
  destruct (Hsep m1 eq_refl) as [[x Hx] Hd].
  rewrite descmap_at_insert_ne.
  - reflexivity.
  - intros ->. destruct (EntityDescriptions ctx2) as [m'|]; congruence.
Qed.

Lemma registration_keeps_other_contexts_witness :
  1 <> 2 /\
  contexts Faulty.two_contexts !! 1 = Some (mkDatabaseContext (Some 0) (Some 0)) /\
  contexts Faulty.two_contexts !! 2 = Some (mkDatabaseContext (Some 0) None) /\
  exists s1,
    RegisterEntityDescription (Some 2) Sample.lists Faulty.two_contexts = (Ret tt, s1) /\
    EntityDescriptionForName (Some 1) "List" s1 = (Ret Sample.lists_registered, s1).
Proof.
  assert (H0 : 1 <> 2) by (intros H; discriminate H).
  assert (H : forall m1, EntityDescriptions (mkDatabaseContext (Some 0) (Some 0)) = Some m1 ->
              is_Some (descmaps Faulty.two_contexts !! m1) /\
              EntityDescriptions (mkDatabaseContext (Some 0) None) <> Some m1).
  { intros m1 [= <-]. split; [eexists; reflexivity|discriminate]. }
  split; [exact H0|]. split; [reflexivity|]. split; [reflexivity|].
  exact (registration_keeps_other_contexts 1 2 _ _ Sample.lists "List"
           Faulty.two_contexts H0 eq_refl eq_refl H).
Defined.

(** * Further properties of the generic operations *)

(** ** Operations that only append calls *)

Lemma extends_ret P {A} (a : A) : extends P (ret a).
Proof. intros s. exists []. split; [symmetry; apply add_calls_nil|constructor]. Qed.

Lemma extends_throw P {A} p : extends P (@throw A p).
Proof. intros s. exists []. split; [symmetry; apply add_calls_nil|constructor]. Qed.

Lemma extends_gets P {A} (f : State -> A) : extends P (gets f).
Proof. intros s. exists []. split; [symmetry; apply add_calls_nil|constructor]. Qed.

Lemma extends_deref P {A} (p : option A) : extends P (deref p).
Proof. destruct p; [apply extends_ret|apply extends_throw]. Qed.

Lemma extends_out_of_fuel P {A} : extends P (fun s => (@OutOfFuel A, s)).
Proof. intros s. exists []. split; [symmetry; apply add_calls_nil|constructor]. Qed.

Lemma extends_ask P {A} c (resp : list call -> A) :
  P c = true -> extends P (ask c resp).
Proof. intros H s. exists [c]. split; [reflexivity|]. repeat constructor. exact H. Qed.

Lemma extends_bind P {A B} (m : M A) (k : A -> M B) :
  extends P m -> (forall a, extends P (k a)) -> extends P (bind m k).
Proof.
  intros Hm Hk s. unfold bind. destruct (Hm s) as (l1 & E1 & F1).
  destruct (m s) as [[a|p|] s1]; simpl in E1; subst s1.
  - destruct (Hk a (add_calls s l1)) as (l2 & E2 & F2).
    exists (l1 ++ l2). rewrite E2, add_calls_app. split; [reflexivity|].
    apply Forall_app. split; assumption.
  - exists l1. split; [reflexivity|assumption].
  - exists l1. split; [reflexivity|assumption].
Qed.

Lemma extends_weaken (P Q : call -> bool) {A} (m : M A) :
  (forall c, P c = true -> Q c = true) -> extends P m -> extends Q m.
Proof.
  intros HPQ Hm s. destruct (Hm s) as (l & E & F). exists l. split; [exact E|].
  eapply Forall_impl; [exact F|exact HPQ].
Qed.

Lemma extends_run_deferred P ds p :
  Forall (fun d => extends P d) ds -> extends P (run_deferred ds p).
Proof.
  intros H. revert p. induction H as [|d ds Hd _ IH]; intros p.
  - simpl. destruct p; [apply extends_throw|apply extends_ret].
  - intros s. simpl. destruct (Hd s) as (l1 & E1 & F1).
    destruct (d s) as [[a|q|] s1]; simpl in E1; subst s1.
    + destruct (IH p (add_calls s l1)) as (l2 & E2 & F2).
      exists (l1 ++ l2). rewrite E2, add_calls_app. split; [reflexivity|].
      apply Forall_app. split; assumption.
    + destruct (IH (Some q) (add_calls s l1)) as (l2 & E2 & F2).
      exists (l1 ++ l2). rewrite E2, add_calls_app. split; [reflexivity|].
      apply Forall_app. split; assumption.
    + exists l1. split; [reflexivity|assumption].
Qed.

Lemma extends_with_deferred P {A} ds (body : M A) :
  Forall (fun d => extends P d) ds -> extends P body ->
  extends P (with_deferred ds body).
Proof.
  intros Hds Hb s. unfold with_deferred. destruct (Hb s) as (l1 & E1 & F1).
  destruct (body s) as [[a|p|] s1]; simpl in E1; subst s1.
  - destruct (extends_bind P (run_deferred ds None) (fun _ => ret a)
                (extends_run_deferred P ds None Hds) (fun _ => extends_ret P a)
                (add_calls s l1)) as (l2 & E2 & F2).
    exists (l1 ++ l2). rewrite E2, add_calls_app. split; [reflexivity|].
    apply Forall_app. split; assumption.
  - destruct (extends_bind P (run_deferred ds (Some p)) (fun _ => @throw A p)
                (extends_run_deferred P ds (Some p) Hds) (fun _ => extends_throw P p)
                (add_calls s l1)) as (l2 & E2 & F2).
    exists (l1 ++ l2). rewrite E2, add_calls_app. split; [reflexivity|].
    apply Forall_app. split; assumption.
  - exists l1. split; [reflexivity|assumption].
Qed.

(** Decomposes a goal [extends P m] along the structure of [m]. *)
Ltac extends_step :=
  match goal with
  | |- extends _ (bind _ _) => apply extends_bind; [|intros ?]
  | |- extends _ (ret _) => apply extends_ret
  | |- extends _ (throw _) => apply extends_throw
  | |- extends _ (deref _) => apply extends_deref
  | |- extends _ (gets _) => apply extends_gets
  | |- extends _ (ask _ _) => apply extends_ask; reflexivity
  | |- extends _ (with_deferred _ _) => apply extends_with_deferred
  | |- Forall _ [] => apply Forall_nil_2
  | |- Forall _ (_ :: _) => apply Forall_cons_2
  | |- Forall _ (match ?x with _ => _ end) => destruct x
  | |- extends _ (match ?x with _ => _ end) => destruct x
  | |- extends _ (if ?b then _ else _) => destruct b
  end.

Ltac extends_ops :=
  unfold FindEntity, FindEntities, FindRelatedEntity, CreateFromRows, Create, Create_body,
    Create_steps, Create_cleanup, call_CreateZeroInstance, call_ScanFromRow,
    RelationshipForName, EntityDescriptionForName, load_context,
    sql.DB_Begin, sql.DB_Query, sql.Tx_Stmt, sql.Tx_Exec, sql.Tx_Query,
    sql.Tx_Commit, sql.Tx_Rollback, sql.Stmt_Exec, sql.Stmt_Close,
    sql.Result_LastInsertId, sql.Rows_Close, sql.Now_Unix;
  cbv zeta.

Lemma CreateFromRows_loop_extends w P :
  (forall f, P (ZeroInstance f) = true) ->
  (forall e r, P (ScanFromRow e r) = true) ->
  forall fuel d r acc, extends P (CreateFromRows_loop w fuel d r acc).
Proof.
  intros Hz Hs. induction fuel as [|fuel IH]; intros d r acc; simpl.
  - apply extends_out_of_fuel.
  - extends_ops.
    apply extends_bind.
    { apply extends_bind; [apply extends_deref|].
      intros f. apply extends_ask. apply Hz. }
    intros entity. apply extends_bind.
    { apply extends_bind; [apply extends_deref|].
      intros e. apply extends_bind; [apply extends_ask, Hs|].
      intros [b err|p]; [apply extends_ret|apply extends_throw]. }
    intros [b err]. destruct (negb b); [apply extends_ret|apply IH].
Qed.

Ltac extends_all :=
  extends_ops;
  repeat first [ extends_step
               | apply CreateFromRows_loop_extends; intros; reflexivity ].

(** X7. Whatever the world answers and whatever their outcome, the finds
    only append calls to the trace, and these are queries, factory calls,
    scans and closes of a cursor: a find never begins, commits or rolls back
    a transaction and never executes a statement. *)
Theorem finds_only_read (w : World) (fuel : nat) (d : EntityDescription)
    (transaction : option tx) (keyName : option string) (v : value)
    (targetEntityName queryKey : string) :
  extends is_find_call (FindEntities w fuel d transaction keyName v) /\
  extends is_find_call (FindEntity w fuel d transaction keyName v) /\
  extends is_find_call
    (FindRelatedEntity w fuel d transaction targetEntityName queryKey v).
Proof.
  split; [|split].
  - extends_all.
  - extends_all.
  - extends_all.
Qed.

(** X8. [FindRelatedEntity] never closes the cursor of its query, whatever
    its outcome. *)
Theorem FindRelatedEntity_never_closes (w : World) (fuel : nat)
    (d : EntityDescription) (transaction : option tx)
    (targetEntityName queryKey : string) (v : value) :
  extends not_close
    (FindRelatedEntity w fuel d transaction targetEntityName queryKey v).
Proof. extends_all. Qed.

Lemma extends_same_registry {A} (m : M A) s :
  extends any_call m -> same_registry s (snd (m s)).
Proof.
  intros H. destruct (H s) as (l & -> & _). repeat split; reflexivity.
Qed.

(** X9. [Create] and the finds leave the registry as it was, whatever their
    outcome: the contexts, their mappings and the relationship mappings
    after the call are those before it. *)
Theorem operations_keep_the_registry (w : World) (fuel : nat)
    (d : EntityDescription) (transaction : option tx) (args : list value)
    (keyName : option string) (v : value) (targetEntityName queryKey : string)
    (s : State) :
  same_registry s (snd (Create w d transaction args s)) /\
  same_registry s (snd (FindEntities w fuel d transaction keyName v s)) /\
  same_registry s (snd (FindEntity w fuel d transaction keyName v s)) /\
  same_registry s
    (snd (FindRelatedEntity w fuel d transaction targetEntityName queryKey v s)).
Proof.
  split; [|split; [|split]]; apply extends_same_registry; extends_all.
Qed.

(** ** The statement and the cursor of [FindEntities] *)

Lemma statements_of_app a b :
  statements_of (a ++ b) = statements_of a ++ statements_of b.
Proof.
  induction a as [|c a IH]; [reflexivity|].
  destruct c; simpl; rewrite ?IH; reflexivity.
Qed.

Lemma statements_of_after_query l :
  Forall (fun c => is_after_query c = true) l -> statements_of l = [].
Proof.
  induction 1 as [|c l Hc _ IH]; [reflexivity|].
  destruct c; simpl in *; try discriminate Hc; exact IH.
Qed.

Lemma materialize_after_query l :
  Forall (fun c => is_materialize c = true) l ->
  Forall (fun c => is_after_query c = true) l.
Proof.
  intros H. eapply Forall_impl; [exact H|].
  intros c Hc. unfold is_after_query. rewrite Hc. reflexivity.
Qed.

Lemma CreateFromRows_after_query w fuel d r s :
  exists l,
    snd (CreateFromRows w fuel d r s) = add_calls s l /\
    Forall (fun c => is_materialize c = true) l.
Proof.
  unfold CreateFromRows.
  exact (CreateFromRows_loop_extends w is_materialize (fun _ => eq_refl)
           (fun _ _ => eq_refl) fuel d r [] s).
Qed.

Lemma close_on_return w {A} (x : A) r s :
  with_deferred [sql.Rows_Close w (Some r)] (ret x) s
  = (Ret x, add_calls s [RowsClose r]).
Proof. reflexivity. Qed.

Lemma close_nil_on_return w {A} (x : A) s :
  with_deferred [sql.Rows_Close w None] (ret x) s = (Panic NilDereference, s).
Proof. reflexivity. Qed.

Lemma query_sent_or_not d transaction s query v :
  (exists q, query_sent d transaction s query v q) \/
  (forall q, ~ query_sent d transaction s query v q).
Proof.
  unfold query_sent. destruct transaction as [t|]; [left; eexists; reflexivity|].
  destruct (Context d) as [c|] eqn:Ec.
  - destruct (contexts s !! c) as [ctx|] eqn:El.
    + destruct (Database ctx) as [dbh|] eqn:Ed.
      * left. eexists. exists c, ctx, dbh. repeat split; assumption.
      * right. intros q (c' & ctx' & dbh' & H1 & H2 & H3 & _). congruence.
    + right. intros q (c' & ctx' & dbh' & H1 & H2 & H3 & _). congruence.
  - right. intros q (c' & ctx' & dbh' & H1 & H2 & H3 & _). congruence.
Qed.

Lemma find_query_sent w d transaction query v s q :
  query_sent d transaction s query v q ->
  exists a,
    find_query w d transaction query v s = (Ret (go_pair a), add_calls s [q]) /\
    statements_of [q] = [query] /\
    forall r, a = inl r -> query_yields w d transaction s query v r q.
Proof.
  unfold query_sent, query_yields, find_query. destruct transaction as [t|].
  - intros ->. eexists. rewrite Tx_Query_eq. split; [reflexivity|].
    split; [reflexivity|]. intros r Hr. split; [exact Hr|reflexivity].
  - intros (c & ctx & dbh & Hc & Hl & Hd & ->).
    unfold bind. rewrite Hc, (load_context_live _ _ _ Hl), Hd, DB_Query_eq.
    eexists. split; [reflexivity|]. split; [reflexivity|].
    intros r Hr. exists c, ctx, dbh. repeat split; assumption.
Qed.

Lemma find_query_unsent w d transaction query v s :
  (forall q, ~ query_sent d transaction s query v q) ->
  find_query w d transaction query v s = (Panic NilDereference, s).
Proof.
  unfold query_sent, find_query. destruct transaction as [t|]; intros H.
  - exfalso. exact (H _ eq_refl).
  - unfold bind, load_context, deref, gets, ret, throw, bind, sql.DB_Query. simpl.
    destruct (Context d) as [c|] eqn:Ec; [|reflexivity]. simpl.
    destruct (contexts s !! c) as [ctx|] eqn:El; [|reflexivity]. simpl.
    destruct (Database ctx) as [dbh|] eqn:Ed; [|reflexivity].
    exfalso. apply (H (DBQuery dbh query [v])). exists c, ctx, dbh. repeat split; assumption.
Qed.

(** The calls of [FindEntities] when its query can be sent: the query, then
    factory calls and scans, then at most the close of the cursor. *)
Lemma FindEntities_sent w fuel d transaction keyName v s q :
  query_sent d transaction s (find_sql (TableName d) (find_column d keyName)) v q ->
  exists l,
    new_calls s (snd (FindEntities w fuel d transaction keyName v s)) = q :: l /\
    Forall (fun c => is_after_query c = true) l.
Proof.
  intros Hq. destruct (find_query_sent w _ _ _ _ _ _ Hq) as (a & Hfq & _ & _).
  destruct (CreateFromRows_after_query w fuel d (from_option Some None (fst (go_pair a)))
              (add_calls s [q])) as (l & El & Fl).
  apply materialize_after_query in Fl.
  assert (E : FindEntities w fuel d transaction keyName v s
              = (let* (entities, err) :=
                   match snd (go_pair a) with
                   | Some _ => ret ([], snd (go_pair a))
                   | None => CreateFromRows w fuel d (fst (go_pair a))
                   end in
                 with_deferred [sql.Rows_Close w (fst (go_pair a))] (ret (entities, err)))
                  (add_calls s [q])).
  { rewrite FindEntities_unfold. unfold bind at 1. rewrite Hfq.
    destruct (go_pair a). reflexivity. }
  rewrite E. clear E Hfq. destruct a as [r|e]; simpl go_pair in *;
    simpl fst in *; simpl snd in *; simpl from_option in *; cbv beta iota.
  - unfold bind at 1.
    destruct (CreateFromRows w fuel d (Some r) (add_calls s [q])) as [[[es err]|p|] s2];
      simpl snd in El; subst s2.
    + exists (l ++ [RowsClose r]). split.
      * rewrite close_on_return. simpl snd.
        rewrite !add_calls_app, new_calls_add_calls. reflexivity.
      * apply Forall_app. split; [exact Fl|]. repeat constructor.
    + exists l. split; [|exact Fl].
      simpl snd. rewrite add_calls_app, new_calls_add_calls. reflexivity.
    + exists l. split; [|exact Fl].
      simpl snd. rewrite add_calls_app, new_calls_add_calls. reflexivity.
  - exists []. split; [|constructor]. apply new_calls_add_calls.
Qed.

Lemma FindEntities_unsent w fuel d transaction keyName v s :
  (forall q, ~ query_sent d transaction s
                 (find_sql (TableName d) (find_column d keyName)) v q) ->
  FindEntities w fuel d transaction keyName v s = (Panic NilDereference, s).
Proof.
  intros H. rewrite FindEntities_unfold. unfold bind at 1.
  rewrite (find_query_unsent w _ _ _ _ _ H). reflexivity.
Qed.

Lemma new_calls_same s : new_calls s s = [].
Proof. unfold new_calls. apply drop_all. Qed.

(** X10. [FindEntities] sends at most one statement, and its text is always
    [SELECT * FROM <table> WHERE <column>=?] for the given column, or the
    primary-key column when none is given; the value is not part of the
    text.  The query is the first call and carries the value as its only
    parameter: on the caller's transaction when there is one, else on the
    connection of the description's context; when that connection cannot be
    reached, no call is made at all. *)
Theorem FindEntities_sends_one_select (w : World) (fuel : nat)
    (d : EntityDescription) (transaction : option tx) (keyName : option string)
    (v : value) (s : State) :
  (statements_of (new_calls s (snd (FindEntities w fuel d transaction keyName v s))) = [] \/
   statements_of (new_calls s (snd (FindEntities w fuel d transaction keyName v s)))
   = [find_sql (TableName d) (find_column d keyName)]) /\
  (forall t, transaction = Some t ->
     exists l,
       new_calls s (snd (FindEntities w fuel d transaction keyName v s))
       = TxQuery t (find_sql (TableName d) (find_column d keyName)) [v] :: l /\
       statements_of l = []) /\
  (forall c ctx dbh,
     transaction = None ->
     Context d = Some c -> contexts s !! c = Some ctx -> Database ctx = Some dbh ->
     exists l,
       new_calls s (snd (FindEntities w fuel d transaction keyName v s))
       = DBQuery dbh (find_sql (TableName d) (find_column d keyName)) [v] :: l /\
       statements_of l = []) /\
  (transaction = None ->
   (forall c ctx dbh,
       Context d = Some c -> contexts s !! c = Some ctx -> Database ctx <> Some dbh) ->
   new_calls s (snd (FindEntities w fuel d transaction keyName v s)) = []).
Proof.
  split; [|split; [|split]].
  - destruct (query_sent_or_not d transaction s
                (find_sql (TableName d) (find_column d keyName)) v) as [[q Hq]|Hn].
    + right. destruct (FindEntities_sent w fuel _ _ _ _ _ _ Hq) as (l & -> & Hl).
      destruct (find_query_sent w _ _ _ _ _ _ Hq) as (_ & _ & Hs & _).
      change (q :: l) with ([q] ++ l).
      rewrite statements_of_app, Hs, (statements_of_after_query _ Hl). reflexivity.
    + left. rewrite (FindEntities_unsent w fuel _ _ _ _ _ Hn). simpl snd.
      rewrite new_calls_same. reflexivity.
  - intros t ->.
    destruct (FindEntities_sent w fuel d (Some t) keyName v s _ eq_refl) as (l & -> & Hl).
    exists l. split; [reflexivity|]. exact (statements_of_after_query _ Hl).
  - intros c ctx dbh -> Hc Hl Hd.
    assert (Hq : query_sent d None s (find_sql (TableName d) (find_column d keyName)) v
                   (DBQuery dbh (find_sql (TableName d) (find_column d keyName)) [v])).
    { exists c, ctx, dbh. repeat split; assumption. }
    destruct (FindEntities_sent w fuel _ _ _ _ _ _ Hq) as (l & -> & Hl').
    exists l. split; [reflexivity|]. exact (statements_of_after_query _ Hl').
  - intros -> Hn. rewrite FindEntities_unsent; [simpl snd; apply new_calls_same|].
    intros q (c & ctx & dbh & Hc & Hl & Hd & _). exact (Hn c ctx dbh Hc Hl Hd).
Qed.

(** X11. Whenever [FindEntities] returns, its query was answered with a
    cursor, and the last call it made closed that cursor, after the factory
    calls and scans. *)
Theorem FindEntities_closes_its_cursor (w : World) (fuel : nat)
    (d : EntityDescription) (transaction : option tx) (keyName : option string)
    (v : value) (s s' : State) (entities : list Entity) (err : error) :
  FindEntities w fuel d transaction keyName v s = (Ret (entities, err), s') ->
  exists q l r,
    new_calls s s' = q :: l ++ [RowsClose r] /\
    query_yields w d transaction s
      (find_sql (TableName d) (find_column d keyName)) v r q /\
    statements_of [q] = [find_sql (TableName d) (find_column d keyName)] /\
    Forall (fun c => is_materialize c = true) l.
Proof.
  intros H.
  destruct (query_sent_or_not d transaction s
              (find_sql (TableName d) (find_column d keyName)) v) as [[q Hq]|Hn];
    [|rewrite (FindEntities_unsent w fuel _ _ _ _ _ Hn) in H; discriminate H].
  destruct (find_query_sent w _ _ _ _ _ _ Hq) as (a & Hfq & Hs & Hy).
  rewrite FindEntities_unfold in H. unfold bind at 1 in H. rewrite Hfq in H.
  destruct a as [r|e]; unfold go_pair in H; cbv beta iota in H.
  - unfold bind at 1 in H.
    destruct (CreateFromRows_after_query w fuel d (Some r) (add_calls s [q]))
      as (l & El & Fl).
    destruct (CreateFromRows w fuel d (Some r) (add_calls s [q])) as [[[es err']|p|] s2];
      simpl snd in El; subst s2; [|discriminate H|discriminate H].
    rewrite close_on_return in H. injection H as _ _ <-.
    exists q, l, r. split; [|split; [exact (Hy r eq_refl)|split; [exact Hs|exact Fl]]].
    rewrite !add_calls_app, new_calls_add_calls. reflexivity.
  - unfold bind at 1 in H. unfold ret at 1 in H.
    rewrite close_nil_on_return in H. discriminate H.
Qed.

Lemma FindEntities_closes_its_cursor_witness :
  FindEntities (Sample.world 3) 4 Sample.lists_registered None None (VInt64 1) Sample.state
  = (Ret ([0; 1; 2], None),
     add_calls Sample.state
       [DBQuery 0 "SELECT * FROM lists WHERE id=?" [VInt64 1];
        ZeroInstance 1; ScanFromRow 0 (Some 6); ZeroInstance 1; ScanFromRow 1 (Some 6);
        ZeroInstance 1; ScanFromRow 2 (Some 6); ZeroInstance 1; ScanFromRow 3 (Some 6);
        RowsClose 6]) /\
  exists q l r,
    new_calls Sample.state
      (add_calls Sample.state
         [DBQuery 0 "SELECT * FROM lists WHERE id=?" [VInt64 1];
          ZeroInstance 1; ScanFromRow 0 (Some 6); ZeroInstance 1; ScanFromRow 1 (Some 6);
          ZeroInstance 1; ScanFromRow 2 (Some 6); ZeroInstance 1; ScanFromRow 3 (Some 6);
          RowsClose 6])
    = q :: l ++ [RowsClose r] /\
    query_yields (Sample.world 3) Sample.lists_registered None Sample.state
      (find_sql "lists" "id") (VInt64 1) r q /\
    statements_of [q] = [find_sql "lists" "id"] /\
    Forall (fun c => is_materialize c = true) l.
Proof.
  assert (H : FindEntities (Sample.world 3) 4 Sample.lists_registered None None
                (VInt64 1) Sample.state
              = (Ret ([0; 1; 2], None),
                 add_calls Sample.state
                   [DBQuery 0 "SELECT * FROM lists WHERE id=?" [VInt64 1];
                    ZeroInstance 1; ScanFromRow 0 (Some 6); ZeroInstance 1;
                    ScanFromRow 1 (Some 6); ZeroInstance 1; ScanFromRow 2 (Some 6);
                    ZeroInstance 1; ScanFromRow 3 (Some 6); RowsClose 6]))
    by (vm_compute; reflexivity).
  split; [exact H|].
  exact (FindEntities_closes_its_cursor (Sample.world 3) 4 Sample.lists_registered
           None None (VInt64 1) Sample.state _ _ _ H).
Defined.


(** ** The scan loop *)

Lemma CreateFromRows_loop_drains_until w d f r es last :
  CreateZeroInstance d = Some f ->
  forall s acc fuel,
    drains_until w f r (trace s) es last ->
    length es < fuel ->
    CreateFromRows_loop w fuel d r acc s
    = (Ret (acc ++ es, last), add_calls s (drain_calls w f r (trace s) es)).
Proof.
  intros Hf. induction es as [|e es IH]; intros s acc fuel Hd Hfuel.
  - destruct fuel as [|fuel]; [inversion Hfuel|].
    destruct Hd as (e & Hz & Hs). simpl.
    unfold bind. rewrite (call_CreateZeroInstance_eq _ _ _ _ Hf), Hz.
    rewrite call_ScanFromRow_eq. simpl. rewrite Hs. simpl.
    rewrite app_nil_r. unfold ret. f_equal.
    unfold add_calls, set_trace. simpl. rewrite <- app_assoc. reflexivity.
  - destruct fuel as [|fuel]; [inversion Hfuel|].
    destruct Hd as (Hz & (err & Hs) & Hd). simpl.
    unfold bind. rewrite (call_CreateZeroInstance_eq _ _ _ _ Hf), Hz.
    rewrite call_ScanFromRow_eq. simpl. rewrite Hs. simpl.
    rewrite IH.
    + simpl. rewrite <- !app_assoc. simpl. f_equal.
      unfold add_calls, set_trace. simpl. rewrite <- !app_assoc. reflexivity.
    + simpl. rewrite <- app_assoc. exact Hd.
    + simpl in Hfuel. lia.
Qed.

Ltac solve_drains_until :=
  cbn [drains_until];
  repeat match goal with
         | |- _ /\ _ => split
         | |- exists _, _ => eexists
         | |- _ = _ => vm_compute; reflexivity
         end.

(** X12. When the scanner stops with an error after some rows,
    [FindEntities] returns the entities materialized so far together with
    that error, and still closes the cursor. *)
Theorem FindEntities_returns_rows_read_before_a_scan_error (w : World) (fuel : nat)
    (d : EntityDescription) (transaction : option tx) (keyName : option string)
    (v : value) (s : State) (f : factory) (r : rows) (q : call)
    (es : list Entity) (e : string) :
  CreateZeroInstance d = Some f ->
  query_yields w d transaction s (find_sql (TableName d) (find_column d keyName)) v r q ->
  drains_until w f (Some r) (trace s ++ [q]) es (Some e) ->
  length es < fuel ->
  FindEntities w fuel d transaction keyName v s
  = (Ret (es, Some e),
     add_calls s (q :: drain_calls w f (Some r) (trace s ++ [q]) es ++ [RowsClose r])).
Proof.
  intros Hf Hq Hd Hfuel. rewrite FindEntities_unfold. unfold bind at 1.
  rewrite (find_query_yields _ _ _ _ _ _ _ _ Hq). unfold bind at 1.
  unfold CreateFromRows.
  rewrite (CreateFromRows_loop_drains_until w d f (Some r) es (Some e) Hf
             (add_calls s [q]) [] fuel Hd Hfuel).
  rewrite close_on_return, !add_calls_app. reflexivity.
Qed.

Lemma FindEntities_returns_rows_read_before_a_scan_error_witness :
  CreateZeroInstance Sample.lists_registered = Some 1 /\
  query_yields (Faulty.world true true true 2 (Some "bad column"))
    Sample.lists_registered (Some 9) Sample.state
    (find_sql "lists" "id") (VInt64 1) 5
    (TxQuery 9 "SELECT * FROM lists WHERE id=?" [VInt64 1]) /\
  drains_until (Faulty.world true true true 2 (Some "bad column")) 1 (Some 5)
    (trace Sample.state ++ [TxQuery 9 "SELECT * FROM lists WHERE id=?" [VInt64 1]])
    [0; 1] (Some "bad column") /\
  length [0; 1] < 3 /\
  fst (FindEntities (Faulty.world true true true 2 (Some "bad column")) 3
         Sample.lists_registered (Some 9) None (VInt64 1) Sample.state)
  = Ret ([0; 1], Some "bad column").
Proof.
  assert (H1 : query_yields (Faulty.world true true true 2 (Some "bad column"))
                 Sample.lists_registered (Some 9) Sample.state
                 (find_sql "lists" "id") (VInt64 1) 5
                 (TxQuery 9 "SELECT * FROM lists WHERE id=?" [VInt64 1]))
    by (split; reflexivity).
  assert (H2 : drains_until (Faulty.world true true true 2 (Some "bad column")) 1 (Some 5)
                 (trace Sample.state ++
                  [TxQuery 9 "SELECT * FROM lists WHERE id=?" [VInt64 1]])
                 [0; 1] (Some "bad column")) by solve_drains_until.
  assert (H3 : length [0; 1] < 3) by (simpl; lia).
  split; [reflexivity|]. split; [exact H1|]. split; [exact H2|]. split; [exact H3|].
  exact (f_equal fst
           (FindEntities_returns_rows_read_before_a_scan_error
              (Faulty.world true true true 2 (Some "bad column")) 3
              Sample.lists_registered (Some 9) None (VInt64 1) Sample.state
              1 5 _ [0; 1] "bad column" eq_refl H1 H2 H3)).
Defined.

(** X13. With a scanner that reports a row on every call the loop of
    [CreateFromRows] never ends: no amount of fuel lets it return. *)
Theorem CreateFromRows_never_returns_on_an_endless_cursor (w : World)
    (d : EntityDescription) (f : factory) (r : option rows) :
  CreateZeroInstance d = Some f ->
  never_exhausted w f r ->
  forall fuel s, fst (CreateFromRows w fuel d r s) = OutOfFuel.
Proof.
  intros Hf [Hz Hs]. unfold CreateFromRows. generalize (@nil Entity) as acc.
  intros acc fuel. revert acc. induction fuel as [|fuel IH]; intros acc s.
  - reflexivity.
  - simpl. unfold bind. rewrite (call_CreateZeroInstance_eq _ _ _ _ Hf).
    destruct (Hz (trace s)) as (e & ->). rewrite call_ScanFromRow_eq.
    destruct (Hs (trace (add_calls s [ZeroInstance f])) e) as (err & ->). simpl.
    apply IH.
Qed.

Lemma CreateFromRows_never_returns_on_an_endless_cursor_witness :
  CreateZeroInstance Sample.lists_registered = Some 1 /\
  never_exhausted Faulty.endless 1 (Some 5) /\
  fst (CreateFromRows Faulty.endless 50 Sample.lists_registered (Some 5) Sample.state)
  = OutOfFuel.
Proof.
  assert (H : never_exhausted Faulty.endless 1 (Some 5)).
  { split; intros; eexists; reflexivity. }
  split; [reflexivity|]. split; [exact H|].
  exact (CreateFromRows_never_returns_on_an_endless_cursor Faulty.endless
           Sample.lists_registered 1 (Some 5) eq_refl H 50 Sample.state).
Defined.

(** ** Descriptions and names that are not registered *)

(** X14. A description that was never registered has no context.  Without
    a transaction from the caller [Create], [FindEntities] and [FindEntity]
    panic on it with a nil dereference before any call is made, and
    [FindRelatedEntity] does so with or without a transaction. *)
Theorem unregistered_description_panics (w : World) (fuel : nat)
    (d : EntityDescription) (args : list value) (keyName : option string)
    (v : value) (transaction : option tx) (targetEntityName queryKey : string)
    (s : State) :
  Context d = None ->
  Create w d None args s = (Panic NilDereference, s) /\
  FindEntities w fuel d None keyName v s = (Panic NilDereference, s) /\
  FindEntity w fuel d None keyName v s = (Panic NilDereference, s) /\
  FindRelatedEntity w fuel d transaction targetEntityName queryKey v s
  = (Panic NilDereference, s).
Proof.
  intros Hc. split; [|split; [|split]].
  - unfold Create, Create_body, bind, load_context, deref, throw. rewrite Hc. reflexivity.
  - unfold FindEntities, bind, load_context, deref, throw. rewrite Hc. reflexivity.
  - unfold FindEntity, FindEntities, bind, load_context, deref, throw. rewrite Hc.
    reflexivity.
  - unfold FindRelatedEntity. unfold bind at 1. rewrite RelationshipForName_eq.
    unfold bind, EntityDescriptionForName, load_context, deref, throw, bind.
    rewrite Hc. reflexivity.
Qed.

Lemma unregistered_description_panics_witness :
  Context Sample.lists = None /\
  FindEntities (Sample.world 3) 4 Sample.lists None None (VInt64 1) Sample.state
  = (Panic NilDereference, Sample.state).
Proof.
  split; [reflexivity|].
  exact (proj1 (proj2 (unregistered_description_panics (Sample.world 3) 4 Sample.lists
                         [] None (VInt64 1) None "Placemark" "listsID" Sample.state
                         eq_refl))).
Defined.

(** X15. When the target name is not registered in the context,
    [FindRelatedEntity] still sends a join, with an empty target table
    name, on the caller's transaction or else on the context's connection,
    and then panics with a nil dereference on the missing factory, whatever
    the datastore answers; when there is neither a transaction nor a
    connection it panics before any call. *)
Theorem FindRelatedEntity_unregistered_target_panics (w : World) (fuel : nat)
    (d : EntityDescription) (transaction : option tx)
    (targetEntityName queryKey : string)
    (v : value) (s : State) (c : loc) (ctx : DatabaseContext)
    (rel : EntityRelationship) :
  Context d = Some c ->
  contexts s !! c = Some ctx ->
  description_unregistered s ctx targetEntityName ->
  RelationshipForName d targetEntityName s = (Ret rel, s) ->
  (forall t, transaction = Some t ->
     FindRelatedEntity w (S fuel) d transaction targetEntityName queryKey v s
     = (Panic NilDereference,
        add_calls s [TxQuery t
                       (related_find_sql "" (JoinTableName rel) (ForeignKey rel)
                          (TargetKey rel) queryKey) [v]])) /\
  (forall dbh, transaction = None -> Database ctx = Some dbh ->
     FindRelatedEntity w (S fuel) d transaction targetEntityName queryKey v s
     = (Panic NilDereference,
        add_calls s [DBQuery dbh
                       (related_find_sql "" (JoinTableName rel) (ForeignKey rel)
                          (TargetKey rel) queryKey) [v]])) /\
  (transaction = None -> Database ctx = None ->
     FindRelatedEntity w (S fuel) d transaction targetEntityName queryKey v s
     = (Panic NilDereference, s)).
Proof.
  intros Hc Hl Hu Hr.
  assert (Ht : EntityDescriptionForName (Context d) targetEntityName s
               = (Ret zeroEntityDescription, s)).
  { rewrite Hc, (EntityDescriptionForName_live _ _ _ _ Hl).
    unfold description_unregistered in Hu.
    destruct (EntityDescriptions ctx); [rewrite Hu|]; reflexivity. }
  rewrite (FindRelatedEntity_resolved _ _ _ _ _ _ _ _ _ _ Hr Ht).
  split; [|split].
  - intros t ->. unfold bind, find_query. rewrite Tx_Query_eq.
    destruct (tx_query_resp w (trace s) t _ [v]); reflexivity.
  - intros dbh -> Hd. unfold find_query. unfold bind at 1 2.
    rewrite Hc, (load_context_live _ _ _ Hl), Hd, DB_Query_eq.
    destruct (db_query_resp w (trace s) dbh _ [v]); reflexivity.
  - intros -> Hd. unfold find_query. unfold bind at 1 2.
    rewrite Hc, (load_context_live _ _ _ Hl), Hd. reflexivity.
Qed.

Lemma FindRelatedEntity_unregistered_target_panics_witness :
  Context Sample.lists_linked = Some 1 /\
  contexts Sample.state_related !! 1 = Some Sample.context /\
  description_unregistered Sample.state_related Sample.context "Placemark" /\
  RelationshipForName Sample.lists_linked "Placemark" Sample.state_related
  = (Ret Sample.lists_placemarks, Sample.state_related) /\
  FindRelatedEntity (Sample.world 2) 3 Sample.lists_linked None "Placemark" "listsID"
    (VInt64 1) Sample.state_related
  = (Panic NilDereference,
     add_calls Sample.state_related
       [DBQuery 0
          "SELECT .* FROM lists_placemarks LEFT OUTER JOIN  ON lists_placemarks.placemarksID=.id WHERE lists_placemarks.listsID=?"
          [VInt64 1]]).
Proof.
  assert (H1 : description_unregistered Sample.state_related Sample.context "Placemark")
    by exact I.
  assert (H2 : RelationshipForName Sample.lists_linked "Placemark" Sample.state_related
               = (Ret Sample.lists_placemarks, Sample.state_related))
    by (vm_compute; reflexivity).
  split; [reflexivity|]. split; [reflexivity|]. split; [exact H1|]. split; [exact H2|].
  exact (proj1 (proj2 (FindRelatedEntity_unregistered_target_panics (Sample.world 2) 2
                         Sample.lists_linked None "Placemark" "listsID" (VInt64 1)
                         Sample.state_related 1 Sample.context Sample.lists_placemarks
                         eq_refl eq_refl H1 H2))
           0 eq_refl eq_refl).
Defined.

(** ** The paths of [Create] *)

Ltac steps_unfold :=
  unfold Create_steps, call_CreateZeroInstance, call_ScanFromRow,
    sql.Tx_Stmt, sql.Stmt_Exec, sql.Result_LastInsertId, sql.Now_Unix,
    sql.Tx_Exec, sql.Tx_Query, bind, ret, throw, deref, ask, go_pair.

Ltac same_state :=
  f_equal; unfold add_calls, set_trace; simpl; rewrite <- ?app_assoc; reflexivity.

Lemma Create_steps_insert_fails w d t commitAtEnd args s st st' e :
  InsertStatement d = Some st ->
  insert_fails w t st args (trace s) st' e ->
  Create_steps w d (Some t) commitAtEnd args s
  = (Ret (mkCreateVars (Some t) commitAtEnd (Some st') None None (Some e)),
     add_calls s [TxStmt t st; StmtExec st' args]).
Proof.
  intros Hst [H1 H2]. steps_unfold. rewrite Hst. simpl. rewrite H1, H2. simpl.
  same_state.
Qed.

(** [Create_steps] after a successful insert, by the answers to the stamp,
    the re-select, the factory and the scanner. *)
Lemma Create_steps_after_insert w d t commitAtEnd args s st st' rs objectID createdTime :
  InsertStatement d = Some st ->
  insert_succeeds w t st args (trace s) st' rs objectID createdTime ->
  Create_steps w d (Some t) commitAtEnd args s
  = match tx_exec_resp w (trace s ++ insert_calls t st st' args rs) t
            (stamp_sql (TableName d)) [VInt64 createdTime; VInt64 objectID] with
    | inr e =>
        (Ret (mkCreateVars (Some t) commitAtEnd (Some st') None None (Some e)),
         add_calls s (insert_calls t st st' args rs ++
                      [stamp_call t (TableName d) createdTime objectID]))
    | inl _ =>
    match tx_query_resp w
            (trace s ++ insert_calls t st st' args rs ++
             [stamp_call t (TableName d) createdTime objectID]) t
            (reselect_sql (TableName d)) [VInt64 objectID] with
    | inr e =>
        (Ret (mkCreateVars (Some t) commitAtEnd (Some st') None None (Some e)),
         add_calls s (insert_calls t st st' args rs ++
                      [stamp_call t (TableName d) createdTime objectID;
                       reselect_call t (TableName d) objectID]))
    | inl r =>
    match CreateZeroInstance d with
    | None =>
        (Panic NilDereference,
         add_calls s (insert_calls t st st' args rs ++
                      [stamp_call t (TableName d) createdTime objectID;
                       reselect_call t (TableName d) objectID]))
    | Some f =>
    match zero_instance_resp w
            (trace s ++ insert_calls t st st' args rs ++
             [stamp_call t (TableName d) createdTime objectID;
              reselect_call t (TableName d) objectID]) f with
    | None =>
        (Panic NilDereference,
         add_calls s (insert_calls t st st' args rs ++
                      [stamp_call t (TableName d) createdTime objectID;
                       reselect_call t (TableName d) objectID; ZeroInstance f]))
    | Some e =>
    match scan_resp w
            (trace s ++ insert_calls t st st' args rs ++
             [stamp_call t (TableName d) createdTime objectID;
              reselect_call t (TableName d) objectID; ZeroInstance f]) e (Some r) with
    | ScanOk _ err =>
        (Ret (mkCreateVars (Some t) commitAtEnd (Some st') (Some r) (Some e) err),
         add_calls s (insert_calls t st st' args rs ++
                      [stamp_call t (TableName d) createdTime objectID;
                       reselect_call t (TableName d) objectID; ZeroInstance f;
                       ScanFromRow e (Some r)]))
    | ScanPanic p =>
        (Panic p,
         add_calls s (insert_calls t st st' args rs ++
                      [stamp_call t (TableName d) createdTime objectID;
                       reselect_call t (TableName d) objectID; ZeroInstance f;
                       ScanFromRow e (Some r)]))
    end end end end end.
Proof.
  intros Hst (H1 & H2 & H3 & H4). steps_unfold.
  rewrite Hst, sprintf_stamp, sprintf_reselect. simpl.
  rewrite H1, H2. simpl. rewrite <- !app_assoc. simpl. rewrite H3. simpl.
  rewrite <- !app_assoc. simpl. rewrite H4.
  unfold insert_calls, stamp_call, reselect_call. simpl.
  destruct (tx_exec_resp w _ t _ _) as [rs'|e]; simpl; [|same_state].
  rewrite <- !app_assoc. simpl.
  destruct (tx_query_resp w _ t _ _) as [r|e]; simpl; [|same_state].
  destruct (CreateZeroInstance d) as [f|]; simpl; [|same_state].
  rewrite <- !app_assoc. simpl.
  destruct (zero_instance_resp w _ f) as [e|]; simpl; [|same_state].
  rewrite <- !app_assoc. simpl.
  destruct (scan_resp w _ e (Some r)) as [b err|p]; simpl; [|same_state].
  destruct b; simpl; same_state.
Qed.

Lemma owned_end_eq transaction t err :
  (if match transaction with None => true | Some _ => false end
   then [end_of_transaction t err] else [])
  = owned_end transaction t err.
Proof. destruct transaction; reflexivity. Qed.

(** X16. When the insert fails, [Create] returns its error and no entity,
    sends no further statement, rolls back if the transaction is its own,
    and closes the re-bound statement. *)
Theorem Create_insert_failure (w : World) (d : EntityDescription)
    (transaction : option tx) (args : list value) (s : State) (t : tx)
    (pre : list call) (st st' : stmt) (e : string) :
  active_transaction w d transaction s t pre ->
  InsertStatement d = Some st ->
  insert_fails w t st args (trace s ++ pre) st' e ->
  Create w d transaction args s
  = (Ret (None, Some e),
     add_calls s (pre ++ [TxStmt t st; StmtExec st' args] ++
                  owned_end transaction t (Some e) ++ [StmtClose st'])).
Proof.
  intros Ha Hst Hi. rewrite (Create_active _ _ _ _ _ _ _ Ha). unfold bind.
  rewrite (Create_steps_insert_fails w d t _ args (add_calls s pre) st st' e Hst Hi).
  rewrite (Create_cleanup_owned w (mkCreateVars (Some t) _ (Some st') None None (Some e))
             t _ eq_refl).
  simpl cv_commitAtEnd.
  rewrite owned_end_eq, !add_calls_app. reflexivity.
Qed.

Lemma Create_insert_failure_witness :
  active_transaction (Faulty.world false true true 1 None) Sample.lists_registered None
    Sample.state 7 [DBBegin 0] /\
  InsertStatement Sample.lists_registered = Some 1 /\
  insert_fails (Faulty.world false true true 1 None) 7 1 [VString "groceries"]
    (trace Sample.state ++ [DBBegin 0]) 101 "disk full" /\
  Create (Faulty.world false true true 1 None) Sample.lists_registered None
    [VString "groceries"] Sample.state
  = (Ret (None, Some "disk full"),
     add_calls Sample.state
       [DBBegin 0; TxStmt 7 1; StmtExec 101 [VString "groceries"];
        TxRollback 7; StmtClose 101]).
Proof.
  assert (H1 : active_transaction (Faulty.world false true true 1 None)
                 Sample.lists_registered None Sample.state 7 [DBBegin 0]).
  { exists 1, Sample.context, 0. repeat split; reflexivity. }
  assert (H2 : insert_fails (Faulty.world false true true 1 None) 7 1
                 [VString "groceries"] (trace Sample.state ++ [DBBegin 0]) 101 "disk full")
    by (split; reflexivity).
  split; [exact H1|]. split; [reflexivity|]. split; [exact H2|].
  exact (Create_insert_failure (Faulty.world false true true 1 None)
           Sample.lists_registered None [VString "groceries"] Sample.state 7
           [DBBegin 0] 1 101 "disk full" H1 eq_refl H2).
Defined.

(** X17. When the stamp of the creation time fails after a successful
    insert, [Create] returns that error and no entity, does not re-select,
    rolls back if the transaction is its own, and closes the re-bound
    statement. *)
Theorem Create_stamp_failure (w : World) (d : EntityDescription)
    (transaction : option tx) (args : list value) (s : State) (t : tx)
    (pre : list call) (st st' : stmt) (rs : result) (objectID createdTime : Z)
    (e : string) :
  active_transaction w d transaction s t pre ->
  InsertStatement d = Some st ->
  insert_succeeds w t st args (trace s ++ pre) st' rs objectID createdTime ->
  tx_exec_resp w ((trace s ++ pre) ++ insert_calls t st st' args rs) t
    (stamp_sql (TableName d)) [VInt64 createdTime; VInt64 objectID] = inr e ->
  Create w d transaction args s
  = (Ret (None, Some e),
     add_calls s (pre ++ insert_calls t st st' args rs ++
                  [stamp_call t (TableName d) createdTime objectID] ++
                  owned_end transaction t (Some e) ++ [StmtClose st'])).
Proof.
  intros Ha Hst Hi He. rewrite (Create_active _ _ _ _ _ _ _ Ha). unfold bind.
  rewrite (Create_steps_after_insert w d t _ args (add_calls s pre) st st' rs
             objectID createdTime Hst Hi).
  simpl trace. rewrite He.
  rewrite (Create_cleanup_owned w (mkCreateVars (Some t) _ (Some st') None None (Some e))
             t _ eq_refl).
  simpl cv_commitAtEnd.
  rewrite owned_end_eq, !add_calls_app, <- !app_assoc. reflexivity.
Qed.

Lemma Create_stamp_failure_witness :
  active_transaction (Faulty.world true false true 1 None) Sample.lists_registered None
    Sample.state 7 [DBBegin 0] /\
  InsertStatement Sample.lists_registered = Some 1 /\
  insert_succeeds (Faulty.world true false true 1 None) 7 1 [VString "groceries"]
    (trace Sample.state ++ [DBBegin 0]) 101 3 42 1700000000 /\
  Create (Faulty.world true false true 1 None) Sample.lists_registered None
    [VString "groceries"] Sample.state
  = (Ret (None, Some "disk full"),
     add_calls Sample.state
       [DBBegin 0; TxStmt 7 1; StmtExec 101 [VString "groceries"];
        ResultLastInsertId 3; TimeNowUnix; stamp_call 7 "lists" 1700000000 42;
        TxRollback 7; StmtClose 101]).
Proof.
  assert (H1 : active_transaction (Faulty.world true false true 1 None)
                 Sample.lists_registered None Sample.state 7 [DBBegin 0]).
  { exists 1, Sample.context, 0. repeat split; reflexivity. }
  assert (H2 : insert_succeeds (Faulty.world true false true 1 None) 7 1
                 [VString "groceries"] (trace Sample.state ++ [DBBegin 0]) 101 3 42
                 1700000000) by (repeat split; reflexivity).
  split; [exact H1|]. split; [reflexivity|]. split; [exact H2|].
  exact (Create_stamp_failure (Faulty.world true false true 1 None)
           Sample.lists_registered None [VString "groceries"] Sample.state 7
           [DBBegin 0] 1 101 3 42 1700000000 "disk full" H1 eq_refl H2 eq_refl).
Defined.

(** X18. When the re-select fails after the insert and the stamp, [Create]
    returns that error and no entity, calls neither the factory nor the
    scanner, rolls back if the transaction is its own, and closes the
    re-bound statement. *)
Theorem Create_reselect_failure (w : World) (d : EntityDescription)
    (transaction : option tx) (args : list value) (s : State) (t : tx)
    (pre : list call) (st st' : stmt) (rs : result) (objectID createdTime : Z)
    (e : string) :
  active_transaction w d transaction s t pre ->
  InsertStatement d = Some st ->
  insert_succeeds w t st args (trace s ++ pre) st' rs objectID createdTime ->
  stamp_succeeds w t (TableName d) createdTime objectID
    ((trace s ++ pre) ++ insert_calls t st st' args rs) ->
  tx_query_resp w
    ((trace s ++ pre) ++ insert_calls t st st' args rs ++
     [stamp_call t (TableName d) createdTime objectID]) t
    (reselect_sql (TableName d)) [VInt64 objectID] = inr e ->
  Create w d transaction args s
  = (Ret (None, Some e),
     add_calls s (pre ++ insert_calls t st st' args rs ++
                  [stamp_call t (TableName d) createdTime objectID;
                   reselect_call t (TableName d) objectID] ++
                  owned_end transaction t (Some e) ++ [StmtClose st'])).
Proof.
  intros Ha Hst Hi [rs' Hs] He. rewrite (Create_active _ _ _ _ _ _ _ Ha). unfold bind.
  rewrite (Create_steps_after_insert w d t _ args (add_calls s pre) st st' rs
             objectID createdTime Hst Hi).
  simpl trace. rewrite Hs, He.
  rewrite (Create_cleanup_owned w (mkCreateVars (Some t) _ (Some st') None None (Some e))
             t _ eq_refl).
  simpl cv_commitAtEnd.
  rewrite owned_end_eq, !add_calls_app, <- !app_assoc. reflexivity.
Qed.

Lemma Create_reselect_failure_witness :
  active_transaction (Faulty.world true true false 1 None) Sample.lists_registered
    (Some 9) Sample.state 9 [] /\
  InsertStatement Sample.lists_registered = Some 1 /\
  insert_succeeds (Faulty.world true true false 1 None) 9 1 [VString "groceries"]
    (trace Sample.state ++ []) 101 3 42 1700000000 /\
  stamp_succeeds (Faulty.world true true false 1 None) 9 "lists" 1700000000 42
    ((trace Sample.state ++ []) ++ insert_calls 9 1 101 [VString "groceries"] 3) /\
  Create (Faulty.world true true false 1 None) Sample.lists_registered (Some 9)
    [VString "groceries"] Sample.state
  = (Ret (None, Some "disk full"),
     add_calls Sample.state
       [TxStmt 9 1; StmtExec 101 [VString "groceries"]; ResultLastInsertId 3;
        TimeNowUnix; stamp_call 9 "lists" 1700000000 42; reselect_call 9 "lists" 42;
        StmtClose 101]).
Proof.
  assert (H1 : active_transaction (Faulty.world true true false 1 None)
                 Sample.lists_registered (Some 9) Sample.state 9 [])
    by (split; reflexivity).
  assert (H2 : insert_succeeds (Faulty.world true true false 1 None) 9 1
                 [VString "groceries"] (trace Sample.state ++ []) 101 3 42 1700000000)
    by (repeat split; reflexivity).
  assert (H3 : stamp_succeeds (Faulty.world true true false 1 None) 9 "lists"
                 1700000000 42
                 ((trace Sample.state ++ []) ++
                  insert_calls 9 1 101 [VString "groceries"] 3))
    by (eexists; reflexivity).
  split; [exact H1|]. split; [reflexivity|]. split; [exact H2|]. split; [exact H3|].
  exact (Create_reselect_failure (Faulty.world true true false 1 None)
           Sample.lists_registered (Some 9) [VString "groceries"] Sample.state 9
           [] 1 101 3 42 1700000000 "disk full" H1 eq_refl H2 H3 eq_refl).
Defined.

(** X19. When the insert, the stamp and the re-select succeed, [Create]
    returns the entity the factory produced, after one scan of the
    re-selected cursor, together with the scanner's error; it then commits
    or rolls back on that error if the transaction is its own, and closes
    the re-bound statement and the cursor, in this order. *)
Theorem Create_returns_the_scanned_entity (w : World) (d : EntityDescription)
    (transaction : option tx) (args : list value) (s : State) (t : tx)
    (pre : list call) (st st' : stmt) (rs : result) (objectID createdTime : Z)
    (r : rows) (f : factory) (e : Entity) (scanSuccess : bool) (err : error) :
  active_transaction w d transaction s t pre ->
  InsertStatement d = Some st ->
  insert_succeeds w t st args (trace s ++ pre) st' rs objectID createdTime ->
  stamp_succeeds w t (TableName d) createdTime objectID
    ((trace s ++ pre) ++ insert_calls t st st' args rs) ->
  reselect_yields w t (TableName d) objectID
    ((trace s ++ pre) ++ insert_calls t st st' args rs ++
     [stamp_call t (TableName d) createdTime objectID]) r ->
  CreateZeroInstance d = Some f ->
  zero_instance_resp w
    ((trace s ++ pre) ++ insert_calls t st st' args rs ++
     [stamp_call t (TableName d) createdTime objectID;
      reselect_call t (TableName d) objectID]) f = Some e ->
  scan_resp w
    ((trace s ++ pre) ++ insert_calls t st st' args rs ++
     [stamp_call t (TableName d) createdTime objectID;
      reselect_call t (TableName d) objectID; ZeroInstance f]) e (Some r)
  = ScanOk scanSuccess err ->
  Create w d transaction args s
  = (Ret (Some e, err),
     add_calls s (pre ++ insert_calls t st st' args rs ++
                  [stamp_call t (TableName d) createdTime objectID;
                   reselect_call t (TableName d) objectID;
                   ZeroInstance f; ScanFromRow e (Some r)] ++
                  owned_end transaction t err ++ [StmtClose st'; RowsClose r])).
Proof.
  intros Ha Hst Hi [rs' Hs] Hr Hf Hz Hsc.
  rewrite (Create_active _ _ _ _ _ _ _ Ha). unfold bind.
  rewrite (Create_steps_after_insert w d t _ args (add_calls s pre) st st' rs
             objectID createdTime Hst Hi).
  simpl trace. unfold reselect_yields in Hr. rewrite Hs, Hr, Hf, Hz, Hsc.
  rewrite (Create_cleanup_owned w
             (mkCreateVars (Some t) _ (Some st') (Some r) (Some e) err) t _ eq_refl).
  simpl cv_commitAtEnd.
  rewrite owned_end_eq, !add_calls_app, <- !app_assoc. reflexivity.
Qed.

Lemma Create_returns_the_scanned_entity_witness :
  active_transaction (Sample.world 1) Sample.lists_registered None Sample.state 7
    [DBBegin 0] /\
  InsertStatement Sample.lists_registered = Some 1 /\
  insert_succeeds (Sample.world 1) 7 1 [VString "groceries"]
    (trace Sample.state ++ [DBBegin 0]) 101 3 42 1700000000 /\
  CreateZeroInstance Sample.lists_registered = Some 1 /\
  Create (Sample.world 1) Sample.lists_registered None [VString "groceries"] Sample.state
  = (Ret (Some 0, None),
     add_calls Sample.state
       [DBBegin 0; TxStmt 7 1; StmtExec 101 [VString "groceries"];
        ResultLastInsertId 3; TimeNowUnix; stamp_call 7 "lists" 1700000000 42;
        reselect_call 7 "lists" 42; ZeroInstance 1; ScanFromRow 0 (Some 5);
        TxCommit 7; StmtClose 101; RowsClose 5]).
Proof.
  assert (H1 : active_transaction (Sample.world 1) Sample.lists_registered None
                 Sample.state 7 [DBBegin 0]).
  { exists 1, Sample.context, 0. repeat split; reflexivity. }
  assert (H2 : insert_succeeds (Sample.world 1) 7 1 [VString "groceries"]
                 (trace Sample.state ++ [DBBegin 0]) 101 3 42 1700000000)
    by (repeat split; reflexivity).
  assert (H3 : stamp_succeeds (Sample.world 1) 7 "lists" 1700000000 42
                 ((trace Sample.state ++ [DBBegin 0]) ++
                  insert_calls 7 1 101 [VString "groceries"] 3))
    by (eexists; reflexivity).
  split; [exact H1|]. split; [reflexivity|]. split; [exact H2|]. split; [reflexivity|].
  exact (Create_returns_the_scanned_entity (Sample.world 1) Sample.lists_registered
           None [VString "groceries"] Sample.state 7 [DBBegin 0] 1 101 3 42
           1700000000 5 1 0 true None H1 eq_refl H2 H3 eq_refl eq_refl eq_refl eq_refl).
Defined.

(** X20. On a description without factory, [Create] inserts, stamps and
    re-selects the row and then panics with a nil dereference: a transaction
    of its own is left neither committed nor rolled back, and neither the
    re-bound statement nor the cursor is closed. *)
Theorem Create_without_factory_panics_midway (w : World) (d : EntityDescription)
    (transaction : option tx) (args : list value) (s : State) (t : tx)
    (pre : list call) (st st' : stmt) (rs : result) (objectID createdTime : Z)
    (r : rows) :
  active_transaction w d transaction s t pre ->
  InsertStatement d = Some st ->
  insert_succeeds w t st args (trace s ++ pre) st' rs objectID createdTime ->
  stamp_succeeds w t (TableName d) createdTime objectID
    ((trace s ++ pre) ++ insert_calls t st st' args rs) ->
  reselect_yields w t (TableName d) objectID
    ((trace s ++ pre) ++ insert_calls t st st' args rs ++
     [stamp_call t (TableName d) createdTime objectID]) r ->
  CreateZeroInstance d = None ->
  Create w d transaction args s
  = (Panic NilDereference,
     add_calls s (pre ++ insert_calls t st st' args rs ++
                  [stamp_call t (TableName d) createdTime objectID;
                   reselect_call t (TableName d) objectID])).
Proof.
  intros Ha Hst Hi [rs' Hs] Hr Hf.
  rewrite (Create_active _ _ _ _ _ _ _ Ha). unfold bind.
  rewrite (Create_steps_after_insert w d t _ args (add_calls s pre) st st' rs
             objectID createdTime Hst Hi).
  simpl trace. unfold reselect_yields in Hr. rewrite Hs, Hr, Hf.
  rewrite !add_calls_app. reflexivity.
Qed.

Lemma Create_without_factory_panics_midway_witness :
  active_transaction (Sample.world 1) (set_Context Faulty.no_factory (Some 1)) None
    Sample.state 7 [DBBegin 0] /\
  InsertStatement (set_Context Faulty.no_factory (Some 1)) = Some 1 /\
  CreateZeroInstance (set_Context Faulty.no_factory (Some 1)) = None /\
  Create (Sample.world 1) (set_Context Faulty.no_factory (Some 1)) None
    [VString "groceries"] Sample.state
  = (Panic NilDereference,
     add_calls Sample.state
       [DBBegin 0; TxStmt 7 1; StmtExec 101 [VString "groceries"];
        ResultLastInsertId 3; TimeNowUnix; stamp_call 7 "lists" 1700000000 42;
        reselect_call 7 "lists" 42]).
Proof.
  assert (H1 : active_transaction (Sample.world 1)
                 (set_Context Faulty.no_factory (Some 1)) None Sample.state 7
                 [DBBegin 0]).
  { exists 1, Sample.context, 0. repeat split; reflexivity. }
  assert (H2 : insert_succeeds (Sample.world 1) 7 1 [VString "groceries"]
                 (trace Sample.state ++ [DBBegin 0]) 101 3 42 1700000000)
    by (repeat split; reflexivity).
  assert (H3 : stamp_succeeds (Sample.world 1) 7 "lists" 1700000000 42
                 ((trace Sample.state ++ [DBBegin 0]) ++
                  insert_calls 7 1 101 [VString "groceries"] 3))
    by (eexists; reflexivity).
  split; [exact H1|]. split; [reflexivity|]. split; [reflexivity|].
  exact (Create_without_factory_panics_midway (Sample.world 1)
           (set_Context Faulty.no_factory (Some 1)) None [VString "groceries"]
           Sample.state 7 [DBBegin 0] 1 101 3 42 1700000000 5
           H1 eq_refl H2 H3 eq_refl eq_refl).
Defined.
